(** * bing/maps.js: a shallow embedding of the Bing Maps route client

    The module turns three calls (transit, walking and driving directions
    between two addresses) into one HTTP GET each and hands the answer to a
    callback.  The embedding follows [maps.js] function by function:

    - JavaScript values that the module moves around are the inductive
      [Value]; strings are Rocq strings holding the UTF-8 bytes of the text;
      numbers are the integers the module handles (status codes, date
      fields, the constant 3);
    - an object used as a flat key/value hash is an association list kept in
      the order in which [for (key in obj)] visits it (none of the keys of
      this module is an array index, so that is insertion order);
    - the variables that live across calls ([BING_MAPS_API_KEY], and
      [curTime], which [getDefaultOptions] assigns without declaring) are
      the record [Globals], threaded through a state-and-exception monad;
    - the host ([request], [JSON.parse], [new Date()]) enters as data: the
      triple the transport hands to the completion function, a parser, and
      the value of the clock;
    - the functions are given twice.  The first time they follow the calls
      in which [encodeURIComponent] and the callback return: a lone
      surrogate is encoded like any other code unit, and calling the
      callback only records the call.  The module [Raising] gives the
      functions that reach these two calls once more, with the URIError that
      [encodeURIComponent] throws on a lone surrogate and with a callback
      that may throw; the two agree wherever nothing is thrown. *)

From Stdlib Require Import ZArith List String Ascii Bool Lia.
From Stdlib Require Import Numbers.DecimalString.
Import ListNotations.

Local Open Scope string_scope.
Local Open Scope Z_scope.

(** ** Values *)

Inductive Exn : Type :=
| TypeError
| SyntaxError
| ReferenceError
| URIError.

Inductive Completion (A : Type) : Type :=
| Normal (a : A)
| Throw (e : Exn).
Arguments Normal {A} a.
Arguments Throw {A} e.

(** The values that reach the query string and the first callback argument:
    primitives, and [Error] objects (given by their message). *)
Inductive Value : Type :=
| VUndefined
| VNull
| VBool (b : bool)
| VNum (n : Z)
| VStr (s : string)
| VError (message : string).

Definition ToBoolean (v : Value) : bool :=
  match v with
  | VUndefined | VNull => false
  | VBool b => b
  | VNum n => negb (n =? 0)
  | VStr s => negb (s =? "")%string
  | VError _ => true
  end.

(** Decimal rendering of an integer.  It is what [ToString] gives for the
    integers that a JavaScript number holds exactly, those of magnitude up
    to 2^53 ([safe_integer] below); beyond, the host rounds to binary64 and
    prints the shortest decimal that reads back. *)
Definition dec (n : Z) : string := NilZero.string_of_int (Z.to_int n).

Definition ToString (v : Value) : string :=
  match v with
  | VUndefined => "undefined"
  | VNull => "null"
  | VBool true => "true"
  | VBool false => "false"
  | VNum n => dec n
  | VStr s => s
  | VError m => if (m =? "")%string then "Error" else "Error: " ++ m
  end.

(** ** encodeURIComponent *)

Definition in_range (lo hi c : ascii) : bool :=
  ((nat_of_ascii lo <=? nat_of_ascii c)%nat && (nat_of_ascii c <=? nat_of_ascii hi)%nat)%bool.

Definition is_mark (c : ascii) : bool :=
  existsb (Ascii.eqb c) ["-"; "_"; "."; "!"; "~"; "*"; "'"; "("; ")"]%char.

(** uriUnreserved: letters, digits and the nine marks. *)
Definition unreserved (c : ascii) : bool :=
  (in_range "A" "Z" c || in_range "a" "z" c || in_range "0" "9" c || is_mark c)%bool.

Definition hex_digit (n : nat) : ascii :=
  match nth_error (list_ascii_of_string "0123456789ABCDEF") n with
  | Some c => c
  | None => "0"%char
  end.

(** Value of a hexadecimal digit, in either case. *)
Definition hex_value (c : ascii) : option N :=
  let n := N_of_ascii c in
  if in_range "0" "9" c then Some (n - 48)%N
  else if in_range "a" "f" c then Some (n - 87)%N
  else if in_range "A" "F" c then Some (n - 55)%N
  else None.

Definition escape_byte (c : ascii) : string :=
  if unreserved c then String c ""
  else String "%" (String (hex_digit (nat_of_ascii c / 16))
                     (String (hex_digit (nat_of_ascii c mod 16)) "")).

Fixpoint escape (s : string) : string :=
  match s with
  | "" => ""
  | String c r => escape_byte c ++ escape r
  end.

(** The text that [encodeURIComponent(v)] returns.  On a text with a lone
    surrogate the host throws instead: see [Raising.encodeURIComponent]. *)
Definition encodeURIComponent (v : Value) : string := escape (ToString v).

(** ** Objects as ordered key/value hashes *)

Definition Obj : Type := list (string * Value).

Fixpoint get (o : Obj) (k : string) : Value :=
  match o with
  | [] => VUndefined
  | (k', v) :: r => if (k' =? k)%string then v else get r k
  end.

Fixpoint has (o : Obj) (k : string) : bool :=
  match o with
  | [] => false
  | (k', _) :: r => ((k' =? k)%string || has r k)%bool
  end.

(** [o[k] = v]: an existing property keeps its place, a new one goes last. *)
Fixpoint set (o : Obj) (k : string) (v : Value) : Obj :=
  match o with
  | [] => [(k, v)]
  | (k', v') :: r => if (k' =? k)%string then (k', v) :: r else (k', v') :: set r k v
  end.

Definition keys (o : Obj) : list string := map fst o.

(** [Array.prototype.join] on an array of strings. *)
Fixpoint join (sep : string) (l : list string) : string :=
  match l with
  | [] => ""
  | [x] => x
  | x :: r => x ++ sep ++ join sep r
  end.

(** ** maps.js: constants and URL building *)

Definition SERVICE_URL : string := "http://dev.virtualearth.net/REST/v1".
Definition TRANSIT_RESOURCE : string := "Routes/Transit".
Definition WALKING_RESOURCE : string := "Routes/Walking".
Definition DRIVING_RESOURCE : string := "Routes/Driving".

(** The argument is an object or absent ([None]: undefined or null, the
    falsy branch of [if (obj)]). *)
Definition objectToQueryString (obj : option Obj) : string :=
  match obj with
  | Some o => "?" ++ join "&" (map (fun kv => fst kv ++ "=" ++ encodeURIComponent (snd kv)) o)
  | None => ""
  end.

Definition createTransitUrl (queryArgs : option Obj) : string :=
  SERVICE_URL ++ "/" ++ TRANSIT_RESOURCE ++ objectToQueryString queryArgs.

Definition createWalkingUrl (queryArgs : option Obj) : string :=
  SERVICE_URL ++ "/" ++ WALKING_RESOURCE ++ objectToQueryString queryArgs.

Definition createDrivingUrl (queryArgs : option Obj) : string :=
  SERVICE_URL ++ "/" ++ DRIVING_RESOURCE ++ objectToQueryString queryArgs.

(** ** The clock and the variables that outlive a call *)

(** A [Date] object, given by what its UTC getters return ([getUTCMonth]
    counts from 0). *)
Record Date : Type := mkDate {
  getUTCFullYear : Z;
  getUTCMonth : Z;
  getUTCDate : Z;
  getUTCHours : Z;
  getUTCMinutes : Z;
  getUTCSeconds : Z
}.

(** [BING_MAPS_API_KEY] is read from the environment when the module loads
    ([VUndefined] when the variable is not set).  [curTime] is assigned in
    [getDefaultOptions] without a [var], so it is a property of the global
    object; [None] is the state in which it has never been assigned. *)
Record Globals : Type := mkGlobals {
  BING_MAPS_API_KEY : Value;
  curTime : option Date
}.

Definition M (A : Type) : Type := Globals -> Completion A * Globals.

Definition ret {A : Type} (a : A) : M A := fun g => (Normal a, g).

Definition bind {A B : Type} (m : M A) (f : A -> M B) : M B :=
  fun g =>
    match m g with
    | (Normal a, g') => f a g'
    | (Throw e, g') => (Throw e, g')
    end.

Notation "x <- m ;; k" := (bind m (fun x => k))
  (at level 61, m at next level, right associativity).

Definition read_BING_MAPS_API_KEY : M Value :=
  fun g => (Normal (BING_MAPS_API_KEY g), g).

Definition write_curTime (d : Date) : M unit :=
  fun g => (Normal tt, mkGlobals (BING_MAPS_API_KEY g) (Some d)).

(** Reading a global that was never assigned is a ReferenceError. *)
Definition read_curTime : M Date :=
  fun g =>
    match curTime g with
    | Some d => (Normal d, g)
    | None => (Throw ReferenceError, g)
    end.

(** ** maps.js: default options

    [now] is the value of [new Date()] at the call. *)

Definition getDefaultOptions (now : Date) : M Obj :=
  _ <- write_curTime now ;;
  ret [("optimize", VStr "time"); ("distanceUnit", VStr "mi"); ("outputType", VStr "json")].

(** [(m+1) + "/" + d + "/" + y + " " + h + ":" + mi + ":" + s]: the first
    [+] adds numbers, every later one concatenates. *)
Definition travelTime_of (t : Date) : string :=
  dec (getUTCMonth t + 1) ++ "/" ++ dec (getUTCDate t) ++ "/" ++ dec (getUTCFullYear t)
  ++ " " ++ dec (getUTCHours t) ++ ":" ++ dec (getUTCMinutes t) ++ ":" ++ dec (getUTCSeconds t).

Definition getDefaultTransitOptions (now : Date) : M Obj :=
  options <- getDefaultOptions now ;;
  t <- read_curTime ;;
  let options := set options "travelTime" (VStr (travelTime_of t)) in
  let options := set options "timeType" (VStr "Departure") in
  let options := set options "maxSolutionCount" (VNum 3) in
  ret options.

Definition getDefaultWalkingOptions (now : Date) : M Obj :=
  options <- getDefaultOptions now ;;
  ret (set options "optimize" (VStr "distance")).

Definition getDefaultDrivingOptions (now : Date) : M Obj :=
  options <- getDefaultOptions now ;;
  ret (set options "optimize" (VStr "time")).

(** ** maps.js: query arguments *)

Definition set_if_truthy (args : Obj) (k : string) (v : Value) : Obj :=
  if ToBoolean v then set args k v else args.

Definition convertLocationsAndOptionsToQueryStringArgs
    (startLocation endLocation : Value) (options : Obj) : M Obj :=
  key <- read_BING_MAPS_API_KEY ;;
  let args := [("wp.0", startLocation);
               ("wp.1", endLocation);
               ("key", key);
               ("o", get options "outputType");
               ("optmz", get options "optimize");
               ("du", get options "distanceUnit")] in
  let args := set_if_truthy args "dt" (get options "travelTime") in
  let args := set_if_truthy args "tt" (get options "timeType") in
  let args := set_if_truthy args "maxSolutions" (get options "maxSolutionCount") in
  ret args.

Set Warnings "-register-all".

(** ** JSON values and JSON.parse

    A number is kept as the literal that denotes it: which binary64 value
    the host makes of it plays no part in this module. *)
Inductive Json : Type :=
| JNull
| JBool (b : bool)
| JNumber (literal : string)
| JString (s : string)
| JArray (elements : list Json)
| JObject (members : list (string * Json)).

(** The host's [JSON.parse] for the JSON grammar of ES5, as a pushdown
    automaton that reads the text one byte at a time. *)
Module JSON.

Inductive Frame : Type :=
| FArr (elems : list Json)
| FObj (members : list (string * Json)) (key : option string).

Inductive NumPhase : Type :=
| NMinus | NZero | NInt | NDot | NFrac | NExp | NExpSign | NExpDigits.

Inductive Mode : Type :=
| MValue
| MFirstElem
| MFirstKey
| MKey
| MColon
| MAfter
| MKeyword (rest : string) (v : Json)
| MString (iskey : bool) (acc : list ascii)
| MEscape (iskey : bool) (acc : list ascii)
| MUnicode (iskey : bool) (acc : list ascii) (digits : list N)
| MNumber (acc : string) (phase : NumPhase).

Record State : Type := mkState {
  stack : list Frame;
  result : option Json;
  mode : Mode
}.

Definition is_ws (c : ascii) : bool :=
  existsb (Ascii.eqb c) ["009"; "010"; "013"; " "]%char.

Definition is_digit (c : ascii) : bool := in_range "0" "9" c.

(** Bytes of a code point (for a lone surrogate, of the surrogate itself),
    last byte first. *)
Definition utf8_rev (cp : N) : list ascii :=
  let b (n : N) := ascii_of_N n in
  let cont (n : N) := b (128 + n mod 64)%N in
  if (cp <? 128)%N then [b cp]
  else if (cp <? 2048)%N then [cont cp; b (192 + cp / 64)%N]
  else if (cp <? 65536)%N then [cont cp; cont (cp / 64)%N; b (224 + cp / 4096)%N]
  else [cont cp; cont (cp / 64)%N; cont (cp / 4096)%N; b (240 + cp / 262144)%N].

(** A low surrogate that follows the bytes of a high one completes the
    pair; any other code unit is appended. *)
Definition push_unit (acc : list ascii) (u : N) : list ascii :=
  let fresh := (utf8_rev u ++ acc)%list in
  if ((56320 <=? u)%N && (u <=? 57343)%N)%bool then
    match acc with
    | b3 :: b2 :: b1 :: r =>
        if (Ascii.eqb b1 "237" && in_range "160" "175" b2)%bool then
          let hi := (53248 + (N_of_ascii b2 mod 64) * 64 + N_of_ascii b3 mod 64)%N in
          (utf8_rev (65536 + (hi - 55296) * 1024 + (u - 56320))%N ++ r)%list
        else fresh
    | _ => fresh
    end
  else fresh.

Definition text (acc : list ascii) : string := string_of_list_ascii (rev acc).

(** A later member of the same name replaces the value of the earlier. *)
Fixpoint put (ms : list (string * Json)) (k : string) (v : Json) : list (string * Json) :=
  match ms with
  | [] => [(k, v)]
  | (k', v') :: r => if (k' =? k)%string then (k', v) :: r else (k', v') :: put r k v
  end.

Definition complete_value (v : Json) (st : list Frame) : option State :=
  match st with
  | [] => Some (mkState [] (Some v) MAfter)
  | FArr elems :: r => Some (mkState (FArr (v :: elems) :: r) None MAfter)
  | FObj ms (Some k) :: r => Some (mkState (FObj (put ms k v) None :: r) None MAfter)
  | FObj _ None :: _ => None
  end.

Definition close_array (st : list Frame) : option State :=
  match st with
  | FArr elems :: r => complete_value (JArray (rev elems)) r
  | _ => None
  end.

Definition close_object (st : list Frame) : option State :=
  match st with
  | FObj ms None :: r => complete_value (JObject ms) r
  | _ => None
  end.

Definition after_value (s : State) (c : ascii) : option State :=
  if is_ws c then Some s
  else
    match stack s with
    | [] => None
    | FArr _ :: _ =>
        if Ascii.eqb c "," then Some (mkState (stack s) None MValue)
        else if Ascii.eqb c "]" then close_array (stack s)
        else None
    | FObj _ _ :: _ =>
        if Ascii.eqb c "," then Some (mkState (stack s) None MKey)
        else if Ascii.eqb c "}" then close_object (stack s)
        else None
    end.

Definition begin_value (st : list Frame) (c : ascii) : option State :=
  if Ascii.eqb c "034" then Some (mkState st None (MString false []))
  else if Ascii.eqb c "[" then Some (mkState (FArr [] :: st) None MFirstElem)
  else if Ascii.eqb c "{" then Some (mkState (FObj [] None :: st) None MFirstKey)
  else if Ascii.eqb c "n" then Some (mkState st None (MKeyword "ull" JNull))
  else if Ascii.eqb c "t" then Some (mkState st None (MKeyword "rue" (JBool true)))
  else if Ascii.eqb c "f" then Some (mkState st None (MKeyword "alse" (JBool false)))
  else if Ascii.eqb c "-" then Some (mkState st None (MNumber "-" NMinus))
  else if Ascii.eqb c "0" then Some (mkState st None (MNumber "0" NZero))
  else if is_digit c then Some (mkState st None (MNumber (String c "") NInt))
  else None.

Definition end_string (iskey : bool) (acc : list ascii) (st : list Frame) : option State :=
  if iskey then
    match st with
    | FObj ms None :: r => Some (mkState (FObj ms (Some (text acc)) :: r) None MColon)
    | _ => None
    end
  else complete_value (JString (text acc)) st.

Definition escaped (c : ascii) : option ascii :=
  if Ascii.eqb c "034" then Some "034"%char
  else if Ascii.eqb c "\" then Some "\"%char
  else if Ascii.eqb c "/" then Some "/"%char
  else if Ascii.eqb c "b" then Some "008"%char
  else if Ascii.eqb c "f" then Some "012"%char
  else if Ascii.eqb c "n" then Some "010"%char
  else if Ascii.eqb c "r" then Some "013"%char
  else if Ascii.eqb c "t" then Some "009"%char
  else None.

Definition number_ends (ph : NumPhase) : bool :=
  match ph with
  | NZero | NInt | NFrac | NExpDigits => true
  | _ => false
  end.

(** The phase after one more byte of a number, if the byte belongs to it. *)
Definition number_next (ph : NumPhase) (c : ascii) : option NumPhase :=
  let is_e := (Ascii.eqb c "e" || Ascii.eqb c "E")%bool in
  match ph with
  | NMinus => if Ascii.eqb c "0" then Some NZero else if is_digit c then Some NInt else None
  | NZero => if Ascii.eqb c "." then Some NDot else if is_e then Some NExp else None
  | NInt => if is_digit c then Some NInt
            else if Ascii.eqb c "." then Some NDot else if is_e then Some NExp else None
  | NDot => if is_digit c then Some NFrac else None
  | NFrac => if is_digit c then Some NFrac else if is_e then Some NExp else None
  | NExp => if (Ascii.eqb c "+" || Ascii.eqb c "-")%bool then Some NExpSign
            else if is_digit c then Some NExpDigits else None
  | NExpSign => if is_digit c then Some NExpDigits else None
  | NExpDigits => if is_digit c then Some NExpDigits else None
  end.

Definition step (s : State) (c : ascii) : option State :=
  let st := stack s in
  match mode s with
  | MValue => if is_ws c then Some s else begin_value st c
  | MFirstElem =>
      if is_ws c then Some s
      else if Ascii.eqb c "]" then close_array st
      else begin_value st c
  | MFirstKey =>
      if is_ws c then Some s
      else if Ascii.eqb c "}" then close_object st
      else if Ascii.eqb c "034" then Some (mkState st None (MString true []))
      else None
  | MKey =>
      if is_ws c then Some s
      else if Ascii.eqb c "034" then Some (mkState st None (MString true []))
      else None
  | MColon =>
      if is_ws c then Some s
      else if Ascii.eqb c ":" then Some (mkState st None MValue)
      else None
  | MAfter => after_value s c
  | MKeyword rest v =>
      match rest with
      | String x "" => if Ascii.eqb c x then complete_value v st else None
      | String x rest' => if Ascii.eqb c x then Some (mkState st None (MKeyword rest' v)) else None
      | "" => None
      end
  | MString iskey acc =>
      if Ascii.eqb c "034" then end_string iskey acc st
      else if Ascii.eqb c "\" then Some (mkState st None (MEscape iskey acc))
      else if (N_of_ascii c <? 32)%N then None
      else Some (mkState st None (MString iskey (c :: acc)))
  | MEscape iskey acc =>
      if Ascii.eqb c "u" then Some (mkState st None (MUnicode iskey acc []))
      else
        match escaped c with
        | Some x => Some (mkState st None (MString iskey (x :: acc)))
        | None => None
        end
  | MUnicode iskey acc ds =>
      match hex_value c with
      | Some d =>
          match ds with
          | [d2; d1; d0] =>
              Some (mkState st None
                      (MString iskey (push_unit acc (d0 * 4096 + d1 * 256 + d2 * 16 + d)%N)))
          | _ => Some (mkState st None (MUnicode iskey acc (d :: ds)))
          end
      | None => None
      end
  | MNumber acc ph =>
      match number_next ph c with
      | Some ph' => Some (mkState st None (MNumber (acc ++ String c "") ph'))
      | None =>
          if number_ends ph then
            match complete_value (JNumber acc) st with
            | Some s' => after_value s' c
            | None => None
            end
          else None
      end
  end.

Definition finish (s : State) : option Json :=
  match mode s, stack s with
  | MAfter, [] => result s
  | MNumber acc ph, [] => if number_ends ph then Some (JNumber acc) else None
  | _, _ => None
  end.

Fixpoint run (s : State) (input : string) : option Json :=
  match input with
  | "" => finish s
  | String c r =>
      match step s c with
      | Some s' => run s' r
      | None => None
      end
  end.

(** [JSON.parse(x)]: the argument is converted to a string first. *)
Definition parse (x : Value) : Completion Json :=
  match run (mkState [] None MValue) (ToString x) with
  | Some j => Normal j
  | None => Throw SyntaxError
  end.

End JSON.

(** ** The transport and the callback *)

(** The response object of [request], by the one property the module reads. *)
Record Response : Type := mkResponse { statusCode : Z }.

(** The [body] property of the error object: parsed in [maps.js], the raw
    text in the earlier revisions of the module. *)
Inductive Body : Type :=
| ParsedBody (j : Json)
| RawBody (v : Value).

(** Second argument of the callback: the parsed answer, or
    [{"error": {"statusCode": ..., "body": ...}}]. *)
Inductive Result : Type :=
| Success (j : Json)
| ErrorEnvelope (status : Z) (body : Body).

(** A callback is a function of the caller; the module only calls it. *)
Inductive Callback : Type := Fn (id : nat).

(** One call [callback(err, result)]. *)
Inductive Invocation : Type := Invoke (f : Callback) (err : Value) (result : Result).

(** What running the completion function does: the calls it made, in
    order, and how it ended. *)
Record Outcome : Type := mkOutcome {
  calls : list Invocation;
  completion : Completion unit
}.

(** What [request] hands to its completion function.  When the transport
    fails there is no response: [response] and [body] are undefined. *)
Record Transport : Type := mkTransport {
  t_err : Value;
  t_response : option Response;
  t_body : Value
}.

(** A request in flight: the URL of the GET and the function that
    [request] calls when it completes. *)
Record Request : Type := mkRequest {
  req_url : string;
  on_complete : Value -> option Response -> Value -> Outcome
}.

Definition complete (r : Request) (t : Transport) : Outcome :=
  on_complete r (t_err t) (t_response t) (t_body t).

(** [response.statusCode]: a TypeError when [response] is undefined. *)
Definition response_statusCode (response : option Response) : Completion Z :=
  match response with
  | Some r => Normal (statusCode r)
  | None => Throw TypeError
  end.

Definition throws (e : Exn) : Outcome := mkOutcome [] (Throw e).
Definition returns (l : list Invocation) : Outcome := mkOutcome l (Normal tt).

(** The travel modes, to speak of the three operations at once. *)
Inductive TravelMode : Type := Transit | Walking | Driving.

Section Host.

(** [JSON.parse] of the host. *)
Variable JSON_parse : Value -> Completion Json.

(** The function that [callBingApi] passes to [request]. *)
Definition callBingApi_handler (callback : option Callback)
    (err : Value) (response : option Response) (body : Value) : Outcome :=
  let ok :=
    if negb (ToBoolean err) then
      match response_statusCode response with
      | Normal s => Normal (s =? 200)
      | Throw e => Throw e
      end
    else Normal false in
  match ok with
  | Throw e => throws e
  | Normal true =>
      match callback with
      | Some f =>
          match JSON_parse body with
          | Normal j => returns [Invoke f VUndefined (Success j)]
          | Throw e => throws e
          end
      | None => returns []
      end
  | Normal false =>
      match callback with
      | Some f =>
          match response_statusCode response with
          | Normal s =>
              match JSON_parse body with
              | Normal j => returns [Invoke f err (ErrorEnvelope s (ParsedBody j))]
              | Throw e => throws e
              end
          | Throw e => throws e
          end
      | None => returns []
      end
  end.

Definition callBingApi (url : string) (callback : option Callback) : Request :=
  mkRequest url (callBingApi_handler callback).

(** ** maps.js: the three public operations *)

Definition getTransitRoute (now : Date) (startLocation endLocation : Value)
    (callback : option Callback) : M Request :=
  options <- getDefaultTransitOptions now ;;
  queryStringArgs <- convertLocationsAndOptionsToQueryStringArgs startLocation endLocation options ;;
  let requestUrl := createTransitUrl (Some queryStringArgs) in
  ret (callBingApi requestUrl callback).

Definition getWalkingRoute (now : Date) (startLocation endLocation : Value)
    (callback : option Callback) : M Request :=
  options <- getDefaultWalkingOptions now ;;
  queryStringArgs <- convertLocationsAndOptionsToQueryStringArgs startLocation endLocation options ;;
  let requestUrl := createWalkingUrl (Some queryStringArgs) in
  ret (callBingApi requestUrl callback).

Definition getDrivingRoute (now : Date) (startLocation endLocation : Value)
    (callback : option Callback) : M Request :=
  options <- getDefaultDrivingOptions now ;;
  queryStringArgs <- convertLocationsAndOptionsToQueryStringArgs startLocation endLocation options ;;
  let requestUrl := createDrivingUrl (Some queryStringArgs) in
  ret (callBingApi requestUrl callback).

Definition route (m : TravelMode) : Date -> Value -> Value -> option Callback -> M Request :=
  match m with
  | Transit => getTransitRoute
  | Walking => getWalkingRoute
  | Driving => getDrivingRoute
  end.

End Host.

(** ** The first revision of the module (getTransitRoute only)

    [curTime] is a local variable there, and the error object carries the
    body as received. *)
Module Legacy.

Section Host.

Variable JSON_parse : Value -> Completion Json.

Definition getTransitRoute_handler (callback : option Callback)
    (err : Value) (response : option Response) (body : Value) : Outcome :=
  let ok :=
    if negb (ToBoolean err) then
      match response_statusCode response with
      | Normal s => Normal (s =? 200)
      | Throw e => Throw e
      end
    else Normal false in
  match ok with
  | Throw e => throws e
  | Normal true =>
      match callback with
      | Some f =>
          match JSON_parse body with
          | Normal j => returns [Invoke f VUndefined (Success j)]
          | Throw e => throws e
          end
      | None => returns []
      end
  | Normal false =>
      match callback with
      | Some f =>
          match response_statusCode response with
          | Normal s => returns [Invoke f err (ErrorEnvelope s (RawBody body))]
          | Throw e => throws e
          end
      | None => returns []
      end
  end.

Definition getTransitRoute (now : Date) (startLocation endLocation : Value)
    (callback : option Callback) : M Request :=
  let curTime := now in
  let options : Obj :=
    [("optimize", VStr "time");
     ("distanceUnit", VStr "mi");
     ("travelTime", VStr (dec (getUTCHours curTime) ++ ":" ++ dec (getUTCMinutes curTime)
                          ++ ":" ++ dec (getUTCSeconds curTime)));
     ("timeType", VStr "Departure");
     ("maxSolutionCount", VNum 3);
     ("outputType", VStr "json")] in
  key <- read_BING_MAPS_API_KEY ;;
  let queryStringArgs : Obj :=
    [("wp.0", startLocation);
     ("wp.1", endLocation);
     ("key", key);
     ("o", get options "outputType");
     ("optmz", get options "optimize");
     ("du", get options "distanceUnit");
     ("dt", get options "travelTime");
     ("tt", get options "timeType");
     ("maxSolutions", get options "maxSolutionCount")] in
  let requestUrl := createTransitUrl (Some queryStringArgs) in
  ret (mkRequest requestUrl (getTransitRoute_handler callback)).

End Host.

End Legacy.


(** ** The exceptions of encodeURIComponent and of the callback *)

(** A surrogate code unit that is not part of a pair is held as the three
    bytes 237, 160..191, x of its own code; no other text has the byte 237
    followed by one of 160..191. *)
Fixpoint lone_surrogate (s : string) : bool :=
  match s with
  | "" => false
  | String c r =>
      match r with
      | String d _ => ((Ascii.eqb c "237" && in_range "160" "191" d) || lone_surrogate r)%bool
      | "" => false
      end
  end.

(** The values that [encodeURIComponent] accepts. *)
Definition well_formed (v : Value) : bool := negb (lone_surrogate (ToString v)).

(** The numbers whose string form is [dec]. *)
Definition safe_integer (v : Value) : bool :=
  match v with
  | VNum n => Z.abs n <=? 9007199254740992
  | _ => true
  end.

(** A callback with what a call of it does: it returns or throws. *)
Record Listener : Type := mkListener {
  listener_fn : Callback;
  listener_call : Value -> Result -> Completion unit
}.

Definition lift {A : Type} (c : Completion A) : M A := fun g => (c, g).

Module Raising.

Definition encodeURIComponent (v : Value) : Completion string :=
  if lone_surrogate (ToString v) then Throw URIError else Normal (escape (ToString v)).

(** The loop of [objectToQueryString]: the first value that cannot be
    encoded ends it. *)
Fixpoint encode_entries (o : Obj) : Completion (list string) :=
  match o with
  | [] => Normal []
  | (key, v) :: r =>
      match encodeURIComponent v with
      | Throw e => Throw e
      | Normal text =>
          match encode_entries r with
          | Throw e => Throw e
          | Normal args => Normal ((key ++ "=" ++ text) :: args)
          end
      end
  end.

Definition objectToQueryString (obj : option Obj) : Completion string :=
  match obj with
  | Some o =>
      match encode_entries o with
      | Normal args => Normal ("?" ++ join "&" args)
      | Throw e => Throw e
      end
  | None => Normal ""
  end.

Definition createTransitUrl (queryArgs : option Obj) : Completion string :=
  match objectToQueryString queryArgs with
  | Normal q => Normal (SERVICE_URL ++ "/" ++ TRANSIT_RESOURCE ++ q)
  | Throw e => Throw e
  end.

Definition createWalkingUrl (queryArgs : option Obj) : Completion string :=
  match objectToQueryString queryArgs with
  | Normal q => Normal (SERVICE_URL ++ "/" ++ WALKING_RESOURCE ++ q)
  | Throw e => Throw e
  end.

Definition createDrivingUrl (queryArgs : option Obj) : Completion string :=
  match objectToQueryString queryArgs with
  | Normal q => Normal (SERVICE_URL ++ "/" ++ DRIVING_RESOURCE ++ q)
  | Throw e => Throw e
  end.

Section Host.

Variable JSON_parse : Value -> Completion Json.

(** [callback(err, result)]: the call is made, and the completion function
    ends as the call ends. *)
Definition call (f : Listener) (err : Value) (result : Result) : Outcome :=
  mkOutcome [Invoke (listener_fn f) err result] (listener_call f err result).

Definition callBingApi_handler (callback : option Listener)
    (err : Value) (response : option Response) (body : Value) : Outcome :=
  let ok :=
    if negb (ToBoolean err) then
      match response_statusCode response with
      | Normal s => Normal (s =? 200)
      | Throw e => Throw e
      end
    else Normal false in
  match ok with
  | Throw e => throws e
  | Normal true =>
      match callback with
      | Some f =>
          match JSON_parse body with
          | Normal j => call f VUndefined (Success j)
          | Throw e => throws e
          end
      | None => returns []
      end
  | Normal false =>
      match callback with
      | Some f =>
          match response_statusCode response with
          | Normal s =>
              match JSON_parse body with
              | Normal j => call f err (ErrorEnvelope s (ParsedBody j))
              | Throw e => throws e
              end
          | Throw e => throws e
          end
      | None => returns []
      end
  end.

Definition callBingApi (url : string) (callback : option Listener) : Request :=
  mkRequest url (callBingApi_handler callback).

Definition getTransitRoute (now : Date) (startLocation endLocation : Value)
    (callback : option Listener) : M Request :=
  options <- getDefaultTransitOptions now ;;
  queryStringArgs <- convertLocationsAndOptionsToQueryStringArgs startLocation endLocation options ;;
  requestUrl <- lift (createTransitUrl (Some queryStringArgs)) ;;
  ret (callBingApi requestUrl callback).

Definition getWalkingRoute (now : Date) (startLocation endLocation : Value)
    (callback : option Listener) : M Request :=
  options <- getDefaultWalkingOptions now ;;
  queryStringArgs <- convertLocationsAndOptionsToQueryStringArgs startLocation endLocation options ;;
  requestUrl <- lift (createWalkingUrl (Some queryStringArgs)) ;;
  ret (callBingApi requestUrl callback).

Definition getDrivingRoute (now : Date) (startLocation endLocation : Value)
    (callback : option Listener) : M Request :=
  options <- getDefaultDrivingOptions now ;;
  queryStringArgs <- convertLocationsAndOptionsToQueryStringArgs startLocation endLocation options ;;
  requestUrl <- lift (createDrivingUrl (Some queryStringArgs)) ;;
  ret (callBingApi requestUrl callback).

Definition route (m : TravelMode) : Date -> Value -> Value -> option Listener -> M Request :=
  match m with
  | Transit => getTransitRoute
  | Walking => getWalkingRoute
  | Driving => getDrivingRoute
  end.

End Host.

End Raising.

(** Seven-bit bytes. *)
Definition is_ascii (c : ascii) : bool := (nat_of_ascii c <? 128)%nat.

(** ** Reading a query string back

    The receiving side of the encoding, used to say what a query string
    contains: the text after [?] is cut at every [&], each piece at its
    first [=], and a value is decoded by undoing the [%XX] escapes. *)

Fixpoint split_on (sep : ascii) (s : string) : list string :=
  match s with
  | "" => [""]
  | String c r =>
      if Ascii.eqb c sep then "" :: split_on sep r
      else
        match split_on sep r with
        | x :: xs => String c x :: xs
        | [] => [String c ""]
        end
  end.

Fixpoint cut_at (sep : ascii) (s : string) : string * string :=
  match s with
  | "" => ("", "")
  | String c r =>
      if Ascii.eqb c sep then ("", r)
      else let (a, b) := cut_at sep r in (String c a, b)
  end.

Definition query_pairs (q : string) : list (string * string) :=
  match q with
  | String "?" "" => []
  | String "?" r => map (cut_at "=") (split_on "&" r)
  | _ => []
  end.

Definition query_keys (q : string) : list string := map fst (query_pairs q).

Fixpoint lookup (k : string) (l : list (string * string)) : option string :=
  match l with
  | [] => None
  | (k', v) :: r => if (k' =? k)%string then Some v else lookup k r
  end.

Fixpoint unescape (s : string) : option string :=
  match s with
  | "" => Some ""
  | String c r =>
      if Ascii.eqb c "%" then
        match r with
        | String h (String l r') =>
            match hex_value h, hex_value l, unescape r' with
            | Some a, Some b, Some t => Some (String (ascii_of_N (a * 16 + b)) t)
            | _, _, _ => None
            end
        | _ => None
        end
      else
        match unescape r with
        | Some t => Some (String c t)
        | None => None
        end
  end.

Fixpoint occurs (c : ascii) (s : string) : bool :=
  match s with
  | "" => false
  | String x r => (Ascii.eqb x c || occurs c r)%bool
  end.

(** A property name that can be read back: it holds no [&] and no [=]. *)
Definition plain_key (k : string) : bool := (negb (occurs "&" k) && negb (occurs "=" k))%bool.

(** The text after the first [?] of a URL, [?] included. *)
Fixpoint url_query (url : string) : string :=
  match url with
  | "" => ""
  | String c r => if Ascii.eqb c "?" then url else url_query r
  end.

(** Texts with double quotes in them. *)
Definition quoted (s : string) : string := String "034" (s ++ String "034" "").

(** The body of the stub of the specification: an object whose only member
    [resourceSets] is the empty array. *)
Definition stub_body : string := "{" ++ quoted "resourceSets" ++ ":[]}".

(** One entry of the array that [objectToQueryString] joins. *)
Definition pair_text (kv : string * Value) : string :=
  fst kv ++ "=" ++ encodeURIComponent (snd kv).

(** The timestamp as the specification words it: month (counted from 1),
    day and year separated by [/], a space, then hours, minutes and seconds
    separated by [:], every field in plain decimal. *)
Definition utc_timestamp (t : Date) : string :=
  join "/" [dec (getUTCMonth t + 1); dec (getUTCDate t); dec (getUTCFullYear t)]
  ++ " " ++ join ":" [dec (getUTCHours t); dec (getUTCMinutes t); dec (getUTCSeconds t)].

(** A whole call: the operation runs on the globals [g]; if it issued a
    request, the transport later answers it with [t]. *)
Definition answer (op : M Request) (g : Globals) (t : Transport) : Completion Outcome :=
  match op g with
  | (Normal r, _) => Normal (complete r t)
  | (Throw e, _) => Throw e
  end.

(** The URL an operation requests, and the globals it leaves behind. *)
Definition requested (op : M Request) (g : Globals) : Completion string :=
  match op g with
  | (Normal r, _) => Normal (req_url r)
  | (Throw e, _) => Throw e
  end.

Definition globals_after {A : Type} (op : M A) (g : Globals) : Globals := snd (op g).

(** The text before the first [?] of a URL. *)
Fixpoint url_path (url : string) : string :=
  match url with
  | "" => ""
  | String c r => if Ascii.eqb c "?" then "" else String c (url_path r)
  end.

(** Every byte of a text satisfies [p]. *)
Fixpoint all (p : ascii -> bool) (s : string) : bool :=
  match s with
  | "" => true
  | String c r => (p c && all p r)%bool
  end.

(** What [encodeURIComponent] can write: an unreserved byte or [%]. *)
Definition escaped_char (c : ascii) : bool := (unreserved c || Ascii.eqb c "%")%bool.

(** The bytes of the URLs of this module: those of an encoded value and the
    delimiters of scheme, path and query. *)
Definition url_char (c : ascii) : bool :=
  (escaped_char c || existsb (Ascii.eqb c) [":"; "/"; "?"; "&"; "="]%char)%bool.

Definition RESOURCE (m : TravelMode) : string :=
  match m with
  | Transit => TRANSIT_RESOURCE
  | Walking => WALKING_RESOURCE
  | Driving => DRIVING_RESOURCE
  end.

(** * Properties *)

(** ** Evaluation on concrete inputs *)

Example escape_address :
  encodeURIComponent (VStr "100 N Broad St, Philadelphia") = "100%20N%20Broad%20St%2C%20Philadelphia".
Proof. reflexivity. Qed.

Example encode_three : encodeURIComponent (VNum 3) = "3".
Proof. reflexivity. Qed.

Example parse_resourceSets :
  JSON.parse (VStr stub_body) = Normal (JObject [("resourceSets", JArray [])]).
Proof. reflexivity. Qed.

Example parse_nested :
  JSON.parse (VStr (" { " ++ quoted "a" ++ " : [1, -2.5e+3, true, null, " ++ quoted "x\né😀" ++ "], "
                    ++ quoted "b" ++ ": {} } "))
  = Normal (JObject [("a", JArray [JNumber "1"; JNumber "-2.5e+3"; JBool true; JNull;
                                   JString (String "x" (String "010" (String "195" (String "169"
                                     (String "240" (String "159" (String "152" (String "128" ""))))))))]);
                     ("b", JObject [])]).
Proof. reflexivity. Qed.

Example parse_text_fails : JSON.parse (VStr "Not Found") = Throw SyntaxError.
Proof. reflexivity. Qed.

Example parse_leading_zero_fails : JSON.parse (VStr "01") = Throw SyntaxError.
Proof. reflexivity. Qed.

Example parse_trailing_comma_fails : JSON.parse (VStr "[1,]") = Throw SyntaxError.
Proof. reflexivity. Qed.

Example parse_undefined_fails : JSON.parse VUndefined = Throw SyntaxError.
Proof. reflexivity. Qed.

Example parse_quoted_text : JSON.parse (VStr (quoted "Not Found")) = Normal (JString "Not Found").
Proof. reflexivity. Qed.

Example parse_surrogate_pair :
  JSON.parse (VStr (quoted "😀é\ud83d"))
  = Normal (JString (String "240" (String "159" (String "152" (String "128"
              (String "195" (String "169" (String "237" (String "160" (String "189" "")))))))))).
Proof. reflexivity. Qed.

(** ** The monad *)

Lemma bind_normal {A B : Type} (m : M A) (f : A -> M B) (g g' : Globals) (a : A) :
  m g = (Normal a, g') -> bind m f g = f a g'.
Proof. intros H. unfold bind. rewrite H. reflexivity. Qed.

(** ** Percent-encoding *)

Lemma unescape_escape_byte (c : ascii) (r : string) :
  unescape (escape_byte c ++ r) =
  match unescape r with Some t => Some (String c t) | None => None end.
Proof.
  destruct c as [[] [] [] [] [] [] [] []]; reflexivity.
Qed.

Lemma unescape_escape (s : string) : unescape (escape s) = Some s.
Proof.
  induction s as [|c r IH]; simpl.
  - reflexivity.
  - rewrite unescape_escape_byte, IH. reflexivity.
Qed.

Lemma occurs_app (c : ascii) (a b : string) :
  occurs c (a ++ b) = (occurs c a || occurs c b)%bool.
Proof.
  induction a as [|x a IH]; simpl.
  - reflexivity.
  - rewrite IH. apply orb_assoc.
Qed.

Lemma escape_byte_separators (c : ascii) :
  occurs "&" (escape_byte c) = false /\ occurs "=" (escape_byte c) = false.
Proof.
  destruct c as [[] [] [] [] [] [] [] []]; split; reflexivity.
Qed.

Lemma escape_separators (s : string) :
  occurs "&" (escape s) = false /\ occurs "=" (escape s) = false.
Proof.
  induction s as [|c r [IH1 IH2]]; simpl.
  - split; reflexivity.
  - rewrite !occurs_app, IH1, IH2.
    destruct (escape_byte_separators c) as [-> ->]. split; reflexivity.
Qed.

(** ** Reading back what [objectToQueryString] wrote *)

Lemma split_on_single (sep : ascii) (x : string) :
  occurs sep x = false -> split_on sep x = [x].
Proof.
  induction x as [|c x IH]; simpl; intros H.
  - reflexivity.
  - apply orb_false_elim in H as [Hc Hx].
    rewrite Hc, (IH Hx). reflexivity.
Qed.

Lemma split_on_app (sep : ascii) (x r : string) :
  occurs sep x = false -> split_on sep (x ++ String sep r) = x :: split_on sep r.
Proof.
  induction x as [|c x IH]; simpl; intros H.
  - rewrite Ascii.eqb_refl. reflexivity.
  - apply orb_false_elim in H as [Hc Hx].
    rewrite Hc, (IH Hx). reflexivity.
Qed.

Lemma split_on_join (sep : ascii) (xs : list string) :
  xs <> [] ->
  Forall (fun x => occurs sep x = false) xs ->
  split_on sep (join (String sep "") xs) = xs.
Proof.
  induction xs as [|x [|y r] IH]; intros Hne Hall.
  - contradiction.
  - simpl. apply split_on_single. now inversion Hall.
  - inversion Hall as [|? ? Hx Hr]; subst.
    change (join (String sep "") (x :: y :: r))
      with (x ++ String sep (join (String sep "") (y :: r))).
    rewrite split_on_app by assumption.
    f_equal. apply IH; [discriminate | assumption].
Qed.

Lemma cut_at_pair (sep : ascii) (k v : string) :
  occurs sep k = false -> cut_at sep (k ++ String sep v) = (k, v).
Proof.
  induction k as [|c k IH]; simpl; intros H.
  - rewrite Ascii.eqb_refl. reflexivity.
  - apply orb_false_elim in H as [Hc Hk].
    rewrite Hc, (IH Hk). reflexivity.
Qed.

Lemma query_pairs_cons (r : string) :
  r <> "" -> query_pairs (String "?" r) = map (cut_at "=") (split_on "&" r).
Proof.
  destruct r; [contradiction | reflexivity].
Qed.

Lemma pair_text_no_amp (kv : string * Value) :
  plain_key (fst kv) = true -> occurs "&" (pair_text kv) = false.
Proof.
  unfold plain_key, pair_text. intros H.
  apply andb_true_iff in H as [Ha _]. apply negb_true_iff in Ha.
  rewrite !occurs_app, Ha. simpl.
  unfold encodeURIComponent. now destruct (escape_separators (ToString (snd kv))) as [-> _].
Qed.

Lemma join_nonempty (sep : string) (x : string) (xs : list string) :
  x <> "" -> join sep (x :: xs) <> "".
Proof.
  intros Hx. destruct x as [|c x]; [contradiction|].
  destruct xs; simpl; discriminate.
Qed.

Lemma pair_text_nonempty (kv : string * Value) : pair_text kv <> "".
Proof.
  unfold pair_text. destruct (fst kv); simpl; discriminate.
Qed.

Lemma query_pairs_objectToQueryString (o : Obj) :
  forallb plain_key (keys o) = true ->
  query_pairs (objectToQueryString (Some o))
  = map (fun kv => (fst kv, encodeURIComponent (snd kv))) o.
Proof.
  intros Hk. unfold objectToQueryString.
  change (fun kv : string * Value => fst kv ++ "=" ++ encodeURIComponent (snd kv)) with pair_text.
  destruct o as [|kv o]; [reflexivity|].
  change ("?" ++ join "&" (map pair_text (kv :: o)))
    with (String "?" (join "&" (map pair_text (kv :: o)))).
  rewrite query_pairs_cons by (apply join_nonempty, pair_text_nonempty).
  rewrite split_on_join.
  - rewrite map_map. apply map_ext_in. intros [k v] Hin.
    unfold pair_text. simpl fst. simpl snd.
    change (k ++ "=" ++ encodeURIComponent v) with (k ++ String "=" (encodeURIComponent v)).
    apply cut_at_pair.
    unfold keys in Hk. rewrite forallb_forall in Hk.
    specialize (Hk k (in_map fst _ _ Hin)).
    unfold plain_key in Hk. apply andb_true_iff in Hk as [_ He]. now apply negb_true_iff in He.
  - discriminate.
  - apply Forall_forall. intros x Hx. apply in_map_iff in Hx as [kv' [<- Hin]].
    apply pair_text_no_amp.
    unfold keys in Hk. rewrite forallb_forall in Hk.
    apply Hk. now apply in_map.
Qed.

(** ** The exception of encodeURIComponent *)

Lemma encode_entries_well_formed (o : Obj) :
  forallb well_formed (map snd o) = true ->
  Raising.encode_entries o = Normal (map pair_text o).
Proof.
  induction o as [|[k v] o IH]; simpl; [reflexivity|].
  intros H. apply andb_true_iff in H as [Hv Ho].
  unfold Raising.encodeURIComponent. unfold well_formed in Hv.
  apply negb_true_iff in Hv. rewrite Hv, (IH Ho). reflexivity.
Qed.

Lemma encode_entries_lone_surrogate (o : Obj) :
  forallb well_formed (map snd o) = false ->
  Raising.encode_entries o = Throw URIError.
Proof.
  induction o as [|[k v] o IH]; simpl; [discriminate|].
  unfold Raising.encodeURIComponent, well_formed at 1.
  destruct (lone_surrogate (ToString v)); simpl; [reflexivity|].
  intros H. now rewrite (IH H).
Qed.

Lemma objectToQueryString_well_formed (o : Obj) :
  forallb well_formed (map snd o) = true ->
  Raising.objectToQueryString (Some o) = Normal (objectToQueryString (Some o)).
Proof.
  intros H. unfold Raising.objectToQueryString. now rewrite (encode_entries_well_formed o H).
Qed.

Lemma objectToQueryString_lone_surrogate (o : Obj) :
  forallb well_formed (map snd o) = false ->
  Raising.objectToQueryString (Some o) = Throw URIError.
Proof.
  intros H. unfold Raising.objectToQueryString. now rewrite (encode_entries_lone_surrogate o H).
Qed.

(** ** Query encoding *)

(** C4, as the code has it: an absent argument gives the empty string; an
    object gives [?] followed by its entries [key=value] joined with [&],
    each value being the percent-encoding of its string form (it decodes
    back to that string, and when no key holds [&] or [=] the entries can be
    read back by cutting at [&] and [=]); the empty object gives [?] alone;
    and when the string form of a value holds a lone surrogate the function
    throws the URIError of [encodeURIComponent].  Numbers are integers of
    magnitude at most 2^53. *)
Theorem objectToQueryString_pairs (o : Obj) :
  forallb safe_integer (map snd o) = true ->
  Raising.objectToQueryString None = Normal ""
  /\ Raising.objectToQueryString (Some []) = Normal "?"
  /\ (forallb well_formed (map snd o) = true ->
      Raising.objectToQueryString (Some o) = Normal (String "?" (join "&" (map pair_text o)))
      /\ Forall (fun kv => unescape (encodeURIComponent (snd kv)) = Some (ToString (snd kv))) o
      /\ (forallb plain_key (keys o) = true ->
          query_pairs (String "?" (join "&" (map pair_text o)))
          = map (fun kv => (fst kv, encodeURIComponent (snd kv))) o))
  /\ (forallb well_formed (map snd o) = false ->
      Raising.objectToQueryString (Some o) = Throw URIError).
Proof.
  intros _. split; [reflexivity|]. split; [reflexivity|]. split.
  - intros Hw. split; [|split].
    + now rewrite objectToQueryString_well_formed.
    + apply Forall_forall. intros kv _. apply unescape_escape.
    + apply query_pairs_objectToQueryString.
  - apply objectToQueryString_lone_surrogate.
Qed.

Lemma objectToQueryString_pairs_witness :
  Raising.objectToQueryString
    (Some [("wp.0", VStr "100 N Broad St, Philadelphia"); ("maxSolutions", VNum 3)])
  = Normal "?wp.0=100%20N%20Broad%20St%2C%20Philadelphia&maxSolutions=3"
  /\ query_pairs "?wp.0=100%20N%20Broad%20St%2C%20Philadelphia&maxSolutions=3"
     = [("wp.0", "100%20N%20Broad%20St%2C%20Philadelphia"); ("maxSolutions", "3")]
  /\ Raising.objectToQueryString
       (Some [("wp.0", VStr (String "237" (String "160" (String "189" ""))))])
     = Throw URIError.
Proof.
  pose proof (objectToQueryString_pairs
                [("wp.0", VStr "100 N Broad St, Philadelphia"); ("maxSolutions", VNum 3)]
                eq_refl) as (_ & _ & H & _).
  destruct (H eq_refl) as (H1 & _ & H2).
  pose proof (objectToQueryString_pairs
                [("wp.0", VStr (String "237" (String "160" (String "189" ""))))]
                eq_refl) as (_ & _ & _ & H3).
  split; [exact (eq_trans H1 eq_refl)|].
  split; [exact (eq_trans (H2 eq_refl) eq_refl) | exact (H3 eq_refl)].
Defined.

(** The empty object is truthy: its query string is [?], not the empty
    string. *)
Lemma objectToQueryString_empty_object :
  Raising.objectToQueryString (Some []) = Normal "?"
  /\ Raising.objectToQueryString (Some []) <> Normal "".
Proof. split; [reflexivity | discriminate]. Qed.

(** ** Default options *)

Lemma getDefaultOptions_run (now : Date) (g : Globals) :
  getDefaultOptions now g
  = (Normal [("optimize", VStr "time"); ("distanceUnit", VStr "mi"); ("outputType", VStr "json")],
     mkGlobals (BING_MAPS_API_KEY g) (Some now)).
Proof. reflexivity. Qed.

Lemma getDefaultTransitOptions_run (now : Date) (g : Globals) :
  getDefaultTransitOptions now g
  = (Normal [("optimize", VStr "time"); ("distanceUnit", VStr "mi"); ("outputType", VStr "json");
             ("travelTime", VStr (travelTime_of now)); ("timeType", VStr "Departure");
             ("maxSolutionCount", VNum 3)],
     mkGlobals (BING_MAPS_API_KEY g) (Some now)).
Proof. reflexivity. Qed.

Lemma getDefaultWalkingOptions_run (now : Date) (g : Globals) :
  getDefaultWalkingOptions now g
  = (Normal [("optimize", VStr "distance"); ("distanceUnit", VStr "mi"); ("outputType", VStr "json")],
     mkGlobals (BING_MAPS_API_KEY g) (Some now)).
Proof. reflexivity. Qed.

Lemma getDefaultDrivingOptions_run (now : Date) (g : Globals) :
  getDefaultDrivingOptions now g
  = (Normal [("optimize", VStr "time"); ("distanceUnit", VStr "mi"); ("outputType", VStr "json")],
     mkGlobals (BING_MAPS_API_KEY g) (Some now)).
Proof. reflexivity. Qed.

Lemma append_assoc (a b c : string) : (a ++ b) ++ c = a ++ b ++ c.
Proof.
  induction a as [|x a IH]; simpl; [reflexivity | now rewrite IH].
Qed.

Lemma travelTime_of_timestamp (t : Date) : travelTime_of t = utc_timestamp t.
Proof.
  unfold travelTime_of, utc_timestamp. cbn [join].
  rewrite !append_assoc. reflexivity.
Qed.

(** C8: the transit options are exactly optimize "time", distanceUnit
    "mi", outputType "json", travelTime the clock's UTC reading written
    month/day/year hours:minutes:seconds with the month counted from 1,
    timeType "Departure" and maxSolutionCount 3. *)
Theorem transit_options (now : Date) (g : Globals) :
  exists g',
    getDefaultTransitOptions now g
    = (Normal [("optimize", VStr "time"); ("distanceUnit", VStr "mi"); ("outputType", VStr "json");
               ("travelTime", VStr (utc_timestamp now)); ("timeType", VStr "Departure");
               ("maxSolutionCount", VNum 3)], g').
Proof.
  eexists. rewrite getDefaultTransitOptions_run, travelTime_of_timestamp. reflexivity.
Qed.

Example transit_options_christmas :
  fst (getDefaultTransitOptions (mkDate 2011 11 25 7 8 9) (mkGlobals VUndefined None))
  = Normal [("optimize", VStr "time"); ("distanceUnit", VStr "mi"); ("outputType", VStr "json");
            ("travelTime", VStr "12/25/2011 7:8:9"); ("timeType", VStr "Departure");
            ("maxSolutionCount", VNum 3)].
Proof. reflexivity. Qed.

(** ** What each operation requests *)

Lemma travelTime_truthy (t : Date) : ToBoolean (VStr (travelTime_of t)) = true.
Proof.
  unfold travelTime_of. simpl. destruct (dec (getUTCMonth t + 1)); reflexivity.
Qed.

Lemma transit_args (startLocation endLocation : Value) (now : Date) (g : Globals) :
  convertLocationsAndOptionsToQueryStringArgs startLocation endLocation
    [("optimize", VStr "time"); ("distanceUnit", VStr "mi"); ("outputType", VStr "json");
     ("travelTime", VStr (travelTime_of now)); ("timeType", VStr "Departure");
     ("maxSolutionCount", VNum 3)] g
  = (Normal [("wp.0", startLocation); ("wp.1", endLocation); ("key", BING_MAPS_API_KEY g);
             ("o", VStr "json"); ("optmz", VStr "time"); ("du", VStr "mi");
             ("dt", VStr (travelTime_of now)); ("tt", VStr "Departure");
             ("maxSolutions", VNum 3)], g).
Proof.
  unfold convertLocationsAndOptionsToQueryStringArgs, bind, read_BING_MAPS_API_KEY, ret.
  cbn [get String.eqb Ascii.eqb Bool.eqb].
  unfold set_if_truthy at 3. rewrite travelTime_truthy. reflexivity.
Qed.

Lemma plain_args (startLocation endLocation : Value) (optimize : string) (g : Globals) :
  convertLocationsAndOptionsToQueryStringArgs startLocation endLocation
    [("optimize", VStr optimize); ("distanceUnit", VStr "mi"); ("outputType", VStr "json")] g
  = (Normal [("wp.0", startLocation); ("wp.1", endLocation); ("key", BING_MAPS_API_KEY g);
             ("o", VStr "json"); ("optmz", VStr optimize); ("du", VStr "mi")], g).
Proof. reflexivity. Qed.

Section Requests.

Variable JSON_parse : Value -> Completion Json.
Variables (now : Date) (startLocation endLocation : Value) (callback : option Callback).
Variable g : Globals.

Lemma getTransitRoute_run :
  getTransitRoute JSON_parse now startLocation endLocation callback g
  = (Normal (callBingApi JSON_parse
               (createTransitUrl
                  (Some [("wp.0", startLocation); ("wp.1", endLocation);
                         ("key", BING_MAPS_API_KEY g);
                         ("o", VStr "json"); ("optmz", VStr "time"); ("du", VStr "mi");
                         ("dt", VStr (travelTime_of now)); ("tt", VStr "Departure");
                         ("maxSolutions", VNum 3)]))
               callback),
     mkGlobals (BING_MAPS_API_KEY g) (Some now)).
Proof.
  unfold getTransitRoute.
  rewrite (bind_normal _ _ _ _ _ (getDefaultTransitOptions_run now g)).
  rewrite (bind_normal _ _ _ _ _ (transit_args _ _ _ _)).
  reflexivity.
Qed.

Lemma getWalkingRoute_run :
  getWalkingRoute JSON_parse now startLocation endLocation callback g
  = (Normal (callBingApi JSON_parse
               (createWalkingUrl
                  (Some [("wp.0", startLocation); ("wp.1", endLocation);
                         ("key", BING_MAPS_API_KEY g);
                         ("o", VStr "json"); ("optmz", VStr "distance"); ("du", VStr "mi")]))
               callback),
     mkGlobals (BING_MAPS_API_KEY g) (Some now)).
Proof. reflexivity. Qed.

Lemma getDrivingRoute_run :
  getDrivingRoute JSON_parse now startLocation endLocation callback g
  = (Normal (callBingApi JSON_parse
               (createDrivingUrl
                  (Some [("wp.0", startLocation); ("wp.1", endLocation);
                         ("key", BING_MAPS_API_KEY g);
                         ("o", VStr "json"); ("optmz", VStr "time"); ("du", VStr "mi")]))
               callback),
     mkGlobals (BING_MAPS_API_KEY g) (Some now)).
Proof. reflexivity. Qed.

(** Every operation issues its request, and hands [request] the same
    completion function. *)
Lemma route_issues (m : TravelMode) :
  exists url,
    route JSON_parse m now startLocation endLocation callback g
    = (Normal (callBingApi JSON_parse url callback), mkGlobals (BING_MAPS_API_KEY g) (Some now)).
Proof.
  destruct m; eexists; simpl route.
  - apply getTransitRoute_run.
  - apply getWalkingRoute_run.
  - apply getDrivingRoute_run.
Qed.

Lemma answer_route (m : TravelMode) (t : Transport) :
  answer (route JSON_parse m now startLocation endLocation callback) g t
  = Normal (callBingApi_handler JSON_parse callback (t_err t) (t_response t) (t_body t)).
Proof.
  unfold answer. destruct (route_issues m) as [url ->]. reflexivity.
Qed.

End Requests.

(** ** The query string of each operation *)

Lemma url_query_transit (o : Obj) :
  url_query (createTransitUrl (Some o)) = objectToQueryString (Some o).
Proof. reflexivity. Qed.

Lemma url_query_walking (o : Obj) :
  url_query (createWalkingUrl (Some o)) = objectToQueryString (Some o).
Proof. reflexivity. Qed.

Lemma url_query_driving (o : Obj) :
  url_query (createDrivingUrl (Some o)) = objectToQueryString (Some o).
Proof. reflexivity. Qed.

Lemma query_keys_objectToQueryString (o : Obj) :
  forallb plain_key (keys o) = true ->
  query_keys (objectToQueryString (Some o)) = keys o.
Proof.
  intros H. unfold query_keys, keys.
  rewrite (query_pairs_objectToQueryString o H), map_map. reflexivity.
Qed.

Lemma get_truthy_has (o : Obj) (k : string) :
  ToBoolean (get o k) = true -> has o k = true.
Proof.
  induction o as [|[k' v] o IH]; simpl.
  - discriminate.
  - destruct (k' =? k)%string; [reflexivity | exact IH].
Qed.

(** C5: whatever the two addresses, the clock and the globals, the transit
    and the driving options have optimize = "time", the walking options
    have optimize = "distance", and all three have distanceUnit = "mi" and
    outputType = "json"; the request of each operation carries them as
    optmz, du and o. *)
Theorem mode_defaults
    (JSON_parse : Value -> Completion Json) (now : Date)
    (startLocation endLocation : Value) (callback : option Callback) (g : Globals) :
  (exists o g', getDefaultTransitOptions now g = (Normal o, g')
     /\ get o "optimize" = VStr "time"
     /\ get o "distanceUnit" = VStr "mi" /\ get o "outputType" = VStr "json")
  /\ (exists o g', getDefaultDrivingOptions now g = (Normal o, g')
     /\ get o "optimize" = VStr "time"
     /\ get o "distanceUnit" = VStr "mi" /\ get o "outputType" = VStr "json")
  /\ (exists o g', getDefaultWalkingOptions now g = (Normal o, g')
     /\ get o "optimize" = VStr "distance"
     /\ get o "distanceUnit" = VStr "mi" /\ get o "outputType" = VStr "json")
  /\ (forall m : TravelMode,
        exists url,
          requested (route JSON_parse m now startLocation endLocation callback) g = Normal url
          /\ lookup "optmz" (query_pairs (url_query url))
             = Some (match m with Walking => "distance" | _ => "time" end)
          /\ lookup "du" (query_pairs (url_query url)) = Some "mi"
          /\ lookup "o" (query_pairs (url_query url)) = Some "json").
Proof.
  split; [|split; [|split]].
  - eexists; eexists. split; [apply getDefaultTransitOptions_run|]. repeat split.
  - eexists; eexists. split; [apply getDefaultDrivingOptions_run|]. repeat split.
  - eexists; eexists. split; [apply getDefaultWalkingOptions_run|]. repeat split.
  - intros m. unfold requested. destruct m; simpl route.
    + rewrite getTransitRoute_run. eexists. split; [reflexivity|].
      cbn [req_url callBingApi]. rewrite url_query_transit.
      rewrite query_pairs_objectToQueryString by reflexivity. repeat split.
    + rewrite getWalkingRoute_run. eexists. split; [reflexivity|].
      cbn [req_url callBingApi]. rewrite url_query_walking.
      rewrite query_pairs_objectToQueryString by reflexivity. repeat split.
    + rewrite getDrivingRoute_run. eexists. split; [reflexivity|].
      cbn [req_url callBingApi]. rewrite url_query_driving.
      rewrite query_pairs_objectToQueryString by reflexivity. repeat split.
Qed.

(** The three conditional entries are written exactly when the option is
    truthy. *)
Lemma conditional_args (startLocation endLocation : Value) (options : Obj) (g : Globals) :
  exists args,
    convertLocationsAndOptionsToQueryStringArgs startLocation endLocation options g
    = (Normal args, g)
    /\ has args "dt" = ToBoolean (get options "travelTime")
    /\ has args "tt" = ToBoolean (get options "timeType")
    /\ has args "maxSolutions" = ToBoolean (get options "maxSolutionCount").
Proof.
  eexists. split; [reflexivity|].
  unfold set_if_truthy.
  destruct (ToBoolean (get options "travelTime")),
           (ToBoolean (get options "timeType")),
           (ToBoolean (get options "maxSolutionCount")); repeat split.
Qed.

(** C6: whatever the two addresses, the query string of the transit request
    has the keys dt, tt and maxSolutions, and the query strings of the
    walking and driving requests have none of the three; an entry dt, tt or
    maxSolutions is written only for options that have travelTime, timeType
    or maxSolutionCount. *)
Theorem transit_only_fields
    (JSON_parse : Value -> Completion Json) (now : Date)
    (startLocation endLocation : Value) (callback : option Callback) (g : Globals) :
  (exists ut uw ud,
     requested (getTransitRoute JSON_parse now startLocation endLocation callback) g = Normal ut
     /\ requested (getWalkingRoute JSON_parse now startLocation endLocation callback) g = Normal uw
     /\ requested (getDrivingRoute JSON_parse now startLocation endLocation callback) g = Normal ud
     /\ query_keys (url_query ut)
        = ["wp.0"; "wp.1"; "key"; "o"; "optmz"; "du"; "dt"; "tt"; "maxSolutions"]
     /\ query_keys (url_query uw) = ["wp.0"; "wp.1"; "key"; "o"; "optmz"; "du"]
     /\ query_keys (url_query ud) = ["wp.0"; "wp.1"; "key"; "o"; "optmz"; "du"]
     /\ Forall (fun k => In k (query_keys (url_query ut))
                         /\ ~ In k (query_keys (url_query uw))
                         /\ ~ In k (query_keys (url_query ud)))
          ["dt"; "tt"; "maxSolutions"])
  /\ (forall options : Obj,
        exists args,
          convertLocationsAndOptionsToQueryStringArgs startLocation endLocation options g
          = (Normal args, g)
          /\ (has args "dt" = true -> has options "travelTime" = true)
          /\ (has args "tt" = true -> has options "timeType" = true)
          /\ (has args "maxSolutions" = true -> has options "maxSolutionCount" = true)).
Proof.
  split.
  - unfold requested.
    rewrite getTransitRoute_run, getWalkingRoute_run, getDrivingRoute_run.
    do 3 eexists. do 3 (split; [reflexivity|]).
    cbn [req_url callBingApi].
    rewrite url_query_transit, url_query_walking, url_query_driving.
    rewrite !query_keys_objectToQueryString by reflexivity.
    do 3 (split; [reflexivity|]).
    repeat constructor; cbn; intuition discriminate.
  - intros options.
    destruct (conditional_args startLocation endLocation options g) as (args & E & H1 & H2 & H3).
    exists args. split; [exact E|].
    rewrite H1, H2, H3. repeat split; apply get_truthy_has.
Qed.

Lemma transit_only_fields_witness :
  exists args,
    convertLocationsAndOptionsToQueryStringArgs (VStr "a") (VStr "b")
      [("outputType", VStr "json"); ("timeType", VStr "Arrival")] (mkGlobals (VStr "k") None)
    = (Normal args, mkGlobals (VStr "k") None)
    /\ has args "tt" = true
    /\ has [("outputType", VStr "json"); ("timeType", VStr "Arrival")] "timeType" = true.
Proof.
  destruct (transit_only_fields JSON.parse (mkDate 2011 0 1 0 0 0) (VStr "a") (VStr "b") None
              (mkGlobals (VStr "k") None)) as [_ H].
  destruct (H [("outputType", VStr "json"); ("timeType", VStr "Arrival")])
    as (args & E & _ & Htt & _).
  assert (Hargs : has args "tt" = true) by (injection E as <-; reflexivity).
  exists args. split; [exact E|]. split; [exact Hargs | exact (Htt Hargs)].
Defined.

(** ** The completion function *)

(** C7: for each operation called with a callback, when the transport
    reports no error, status 200 and a body that [JSON.parse] accepts, the
    callback is called once, with undefined and the parsed body. *)
Theorem success_parsed_body
    (JSON_parse : Value -> Completion Json) (m : TravelMode) (now : Date)
    (startLocation endLocation : Value) (f : Callback) (g : Globals)
    (t : Transport) (j : Json) :
  ToBoolean (t_err t) = false ->
  t_response t = Some (mkResponse 200) ->
  JSON_parse (t_body t) = Normal j ->
  answer (route JSON_parse m now startLocation endLocation (Some f)) g t
  = Normal (returns [Invoke f VUndefined (Success j)]).
Proof.
  intros He Hr Hj. rewrite answer_route.
  unfold callBingApi_handler. rewrite He, Hr, Hj. reflexivity.
Qed.

Lemma success_parsed_body_witness :
  answer (getTransitRoute JSON.parse (mkDate 2011 0 1 0 0 0)
            (VStr "100 N Broad St, Philadelphia") (VStr "908 N 3rd St., Philadelphia")
            (Some (Fn 0)))
    (mkGlobals (VStr "k") None)
    (mkTransport VNull (Some (mkResponse 200)) (VStr stub_body))
  = Normal (returns [Invoke (Fn 0) VUndefined (Success (JObject [("resourceSets", JArray [])]))]).
Proof.
  exact (success_parsed_body JSON.parse Transit (mkDate 2011 0 1 0 0 0)
           (VStr "100 N Broad St, Philadelphia") (VStr "908 N 3rd St., Philadelphia")
           (Fn 0) (mkGlobals (VStr "k") None)
           (mkTransport VNull (Some (mkResponse 200)) (VStr stub_body))
           (JObject [("resourceSets", JArray [])]) eq_refl eq_refl eq_refl).
Defined.

(** C1, at the stub of the specification: status 404 with the text
    Not Found.  [JSON.parse] of the body throws before the callback is
    called, in each of the three operations. *)
Theorem not_found_body_throws (m : TravelMode) (now : Date)
    (startLocation endLocation : Value) (f : Callback) (g : Globals) :
  answer (route JSON.parse m now startLocation endLocation (Some f)) g
    (mkTransport VNull (Some (mkResponse 404)) (VStr "Not Found"))
  = Normal (throws SyntaxError).
Proof. rewrite answer_route. reflexivity. Qed.

(** The first revision hands the same answer to the callback, with the
    body as received. *)
Lemma legacy_not_found (now : Date) (startLocation endLocation : Value)
    (f : Callback) (g : Globals) :
  answer (Legacy.getTransitRoute JSON.parse now startLocation endLocation (Some f)) g
    (mkTransport VNull (Some (mkResponse 404)) (VStr "Not Found"))
  = Normal (returns [Invoke f VNull (ErrorEnvelope 404 (RawBody (VStr "Not Found")))]).
Proof. reflexivity. Qed.

(** With a body that is JSON the error object is delivered, with the
    status of the response. *)
Lemma error_envelope_json_body
    (JSON_parse : Value -> Completion Json) (m : TravelMode) (now : Date)
    (startLocation endLocation : Value) (f : Callback) (g : Globals)
    (err body : Value) (status : Z) (j : Json) :
  status <> 200 ->
  JSON_parse body = Normal j ->
  answer (route JSON_parse m now startLocation endLocation (Some f)) g
    (mkTransport err (Some (mkResponse status)) body)
  = Normal (returns [Invoke f err (ErrorEnvelope status (ParsedBody j))]).
Proof.
  intros Hs Hj. rewrite answer_route. unfold callBingApi_handler. cbn.
  apply Z.eqb_neq in Hs. rewrite Hs, Hj.
  destruct (negb (ToBoolean err)); reflexivity.
Qed.

(** C2, when the transport fails: [request] passes the error and no
    response, and reading [response.statusCode] throws a TypeError before
    the callback is called, in each of the three operations. *)
Theorem transport_error_throws
    (JSON_parse : Value -> Completion Json) (m : TravelMode) (now : Date)
    (startLocation endLocation : Value) (f : Callback) (g : Globals) (message : string) :
  answer (route JSON_parse m now startLocation endLocation (Some f)) g
    (mkTransport (VError message) None VUndefined)
  = Normal (throws TypeError).
Proof. rewrite answer_route. reflexivity. Qed.

(** The first revision reads [response.statusCode] in the same place. *)
Lemma legacy_transport_error
    (JSON_parse : Value -> Completion Json) (now : Date)
    (startLocation endLocation : Value) (f : Callback) (g : Globals) (message : string) :
  answer (Legacy.getTransitRoute JSON_parse now startLocation endLocation (Some f)) g
    (mkTransport (VError message) None VUndefined)
  = Normal (throws TypeError).
Proof. reflexivity. Qed.

(** C3, as the code has it: for each operation called with a callback, the
    completion function calls the callback at most once, with undefined and
    the parsed body or with the transport's error argument and an error
    object.  With no error and status 200 it calls it once when the body
    parses and not at all when it does not (the exception of [JSON.parse]
    leaves the function); with a response that comes with a truthy error or
    has another status, and a body that parses, it calls it once with the
    error object. *)
Theorem callback_at_most_once
    (JSON_parse : Value -> Completion Json) (m : TravelMode) (now : Date)
    (startLocation endLocation : Value) (f : Callback) (g : Globals) (t : Transport) :
  exists o,
    answer (route JSON_parse m now startLocation endLocation (Some f)) g t = Normal o
    /\ (List.length (calls o) <= 1)%nat
    /\ Forall (fun i => (exists j, i = Invoke f VUndefined (Success j))
                        \/ (exists s b, i = Invoke f (t_err t) (ErrorEnvelope s b)))
         (calls o)
    /\ (ToBoolean (t_err t) = false ->
        t_response t = Some (mkResponse 200) ->
        match JSON_parse (t_body t) with
        | Normal j => o = returns [Invoke f VUndefined (Success j)]
        | Throw e => o = throws e
        end)
    /\ (forall (status : Z) (j : Json),
          t_response t = Some (mkResponse status) ->
          ToBoolean (t_err t) = true \/ status <> 200 ->
          JSON_parse (t_body t) = Normal j ->
          o = returns [Invoke f (t_err t) (ErrorEnvelope status (ParsedBody j))]).
Proof.
  eexists. split; [apply answer_route|].
  unfold callBingApi_handler.
  destruct t as [err response body]; cbn [t_err t_response t_body].
  repeat split.
  - destruct (ToBoolean err), response as [[s]|]; cbn;
      try destruct (s =? 200); try destruct (JSON_parse body); cbn; lia.
  - destruct (ToBoolean err), response as [[s]|]; cbn;
      try destruct (s =? 200); try destruct (JSON_parse body); cbn;
      repeat (apply Forall_cons || apply Forall_nil); eauto.
  - intros -> ->. cbn. destruct (JSON_parse body); reflexivity.
  - intros status j -> [He | Hs] ->; cbn.
    + now rewrite He.
    + apply Z.eqb_neq in Hs. rewrite Hs.
      destruct (negb (ToBoolean err)); reflexivity.
Qed.

Lemma callback_at_most_once_witness :
  answer (getWalkingRoute JSON.parse (mkDate 2011 0 1 0 0 0) (VStr "a") (VStr "b") (Some (Fn 0)))
    (mkGlobals (VStr "k") None)
    (mkTransport VNull (Some (mkResponse 401)) (VStr ("{" ++ quoted "statusCode" ++ ":401}")))
  = Normal (returns [Invoke (Fn 0) VNull
                       (ErrorEnvelope 401 (ParsedBody (JObject [("statusCode", JNumber "401")])))]).
Proof.
  destruct (callback_at_most_once JSON.parse Walking (mkDate 2011 0 1 0 0 0) (VStr "a") (VStr "b")
              (Fn 0) (mkGlobals (VStr "k") None)
              (mkTransport VNull (Some (mkResponse 401)) (VStr ("{" ++ quoted "statusCode" ++ ":401}"))))
    as (o & E & _ & _ & _ & H).
  rewrite (H 401 (JObject [("statusCode", JNumber "401")]) eq_refl
             (or_intror (proj1 (Z.eqb_neq 401 200) eq_refl)) eq_refl) in E.
  exact E.
Defined.

(** A 200 answer whose body is not JSON: the callback is not called. *)
Lemma callback_skipped_on_malformed_body :
  exists o,
    answer (getTransitRoute JSON.parse (mkDate 2011 0 1 0 0 0) (VStr "a") (VStr "b") (Some (Fn 0)))
      (mkGlobals (VStr "k") None)
      (mkTransport VNull (Some (mkResponse 200)) (VStr "<html>"))
    = Normal o
    /\ calls o = []
    /\ List.length (calls o) <> 1%nat.
Proof.
  exists (throws SyntaxError). repeat split. discriminate.
Qed.

(** ** Globals *)

(** C9, what every operation leaves behind: the key as it was, and in
    [curTime] the clock reading of the call. *)
Theorem curTime_outlives_call
    (JSON_parse : Value -> Completion Json) (m : TravelMode) (now : Date)
    (startLocation endLocation : Value) (callback : option Callback) (g : Globals) :
  globals_after (route JSON_parse m now startLocation endLocation callback) g
  = mkGlobals (BING_MAPS_API_KEY g) (Some now).
Proof.
  unfold globals_after.
  destruct (route_issues JSON_parse now startLocation endLocation callback g m) as [url ->].
  reflexivity.
Qed.

Example walking_leaves_timestamp :
  curTime (globals_after
             (getWalkingRoute JSON.parse (mkDate 2011 11 25 7 8 9) (VStr "a") (VStr "b") None)
             (mkGlobals (VStr "k") None))
  = Some (mkDate 2011 11 25 7 8 9).
Proof. reflexivity. Qed.

(** What an operation requests does not depend on what an earlier call
    left in [curTime]. *)
Lemma request_independent_of_curTime
    (JSON_parse : Value -> Completion Json) (m : TravelMode) (now : Date)
    (startLocation endLocation : Value) (callback : option Callback)
    (key : Value) (c1 c2 : option Date) :
  requested (route JSON_parse m now startLocation endLocation callback) (mkGlobals key c1)
  = requested (route JSON_parse m now startLocation endLocation callback) (mkGlobals key c2).
Proof.
  unfold requested. destruct m; simpl route.
  - now rewrite !getTransitRoute_run.
  - now rewrite !getWalkingRoute_run.
  - now rewrite !getDrivingRoute_run.
Qed.

(** The first revision keeps the clock reading in a local variable. *)
Lemma legacy_leaves_globals
    (JSON_parse : Value -> Completion Json) (now : Date)
    (startLocation endLocation : Value) (callback : option Callback) (g : Globals) :
  globals_after (Legacy.getTransitRoute JSON_parse now startLocation endLocation callback) g = g.
Proof. reflexivity. Qed.

Lemma all_app (p : ascii -> bool) (a b : string) :
  all p (a ++ b) = (all p a && all p b)%bool.
Proof.
  induction a as [|c a IH]; simpl; [reflexivity | now rewrite IH, andb_assoc].
Qed.

Lemma is_ascii_not_237 (c : ascii) : is_ascii c = true -> Ascii.eqb c "237" = false.
Proof.
  destruct c as [[] [] [] [] [] [] [] []]; (reflexivity || discriminate).
Qed.

Lemma ascii_no_surrogate (s : string) : all is_ascii s = true -> lone_surrogate s = false.
Proof.
  induction s as [|c r IH]; [reflexivity|].
  intros H. cbn [all] in H. apply andb_true_iff in H as [Hc Hr].
  cbn [lone_surrogate]. destruct r as [|d r']; [reflexivity|].
  now rewrite (is_ascii_not_237 c Hc), (IH Hr).
Qed.

Lemma uint_ascii (d : Decimal.uint) : all is_ascii (NilEmpty.string_of_uint d) = true.
Proof.
  induction d; simpl; auto.
Qed.

Lemma dec_ascii (n : Z) : all is_ascii (dec n) = true.
Proof.
  unfold dec, NilZero.string_of_int, NilZero.string_of_uint.
  destruct (Z.to_int n) as [d|d]; destruct d; try reflexivity;
    cbn [all]; try (apply (uint_ascii (_ _))); rewrite ?andb_true_l;
    try (apply (uint_ascii (_ _))).
Qed.

Lemma travelTime_well_formed (t : Date) : well_formed (VStr (travelTime_of t)) = true.
Proof.
  unfold well_formed. apply negb_true_iff, ascii_no_surrogate.
  unfold ToString, travelTime_of. rewrite !all_app, !dec_ascii. reflexivity.
Qed.

(** ** The operations with the exception of encodeURIComponent *)

Section RaisingRequests.

Variable JSON_parse : Value -> Completion Json.
Variables (now : Date) (startLocation endLocation : Value) (callback : option Listener).
Variable g : Globals.

Let encodable : bool :=
  (well_formed startLocation && well_formed endLocation
   && well_formed (BING_MAPS_API_KEY g))%bool.

Lemma raising_createTransitUrl (o : Obj) :
  Raising.createTransitUrl (Some o)
  = if forallb well_formed (map snd o) then Normal (createTransitUrl (Some o))
    else Throw URIError.
Proof.
  unfold Raising.createTransitUrl.
  destruct (forallb well_formed (map snd o)) eqn:W.
  - now rewrite objectToQueryString_well_formed.
  - now rewrite objectToQueryString_lone_surrogate.
Qed.

Lemma raising_createWalkingUrl (o : Obj) :
  Raising.createWalkingUrl (Some o)
  = if forallb well_formed (map snd o) then Normal (createWalkingUrl (Some o))
    else Throw URIError.
Proof.
  unfold Raising.createWalkingUrl.
  destruct (forallb well_formed (map snd o)) eqn:W.
  - now rewrite objectToQueryString_well_formed.
  - now rewrite objectToQueryString_lone_surrogate.
Qed.

Lemma raising_createDrivingUrl (o : Obj) :
  Raising.createDrivingUrl (Some o)
  = if forallb well_formed (map snd o) then Normal (createDrivingUrl (Some o))
    else Throw URIError.
Proof.
  unfold Raising.createDrivingUrl.
  destruct (forallb well_formed (map snd o)) eqn:W.
  - now rewrite objectToQueryString_well_formed.
  - now rewrite objectToQueryString_lone_surrogate.
Qed.

(** Each operation, with the exception: the URL is the one computed from
    the encodings, and it is requested exactly when the two locations and
    the key can be encoded; the clock reading is left in [curTime] either
    way. *)
Lemma raising_route_run (m : TravelMode) :
  exists url,
    requested (route JSON_parse m now startLocation endLocation None) g = Normal url
    /\ Raising.route JSON_parse m now startLocation endLocation callback g
       = (if encodable then Normal (Raising.callBingApi JSON_parse url callback)
          else Throw URIError,
          mkGlobals (BING_MAPS_API_KEY g) (Some now)).
Proof.
  unfold requested, encodable. destruct m; simpl route; simpl Raising.route.
  - rewrite getTransitRoute_run. eexists. split; [reflexivity|].
    unfold Raising.getTransitRoute.
    rewrite (bind_normal _ _ _ _ _ (getDefaultTransitOptions_run now g)).
    rewrite (bind_normal _ _ _ _ _ (transit_args _ _ _ _)).
    unfold bind, lift, ret. rewrite raising_createTransitUrl.
    cbn [map snd forallb BING_MAPS_API_KEY]. rewrite travelTime_well_formed.
    destruct (well_formed startLocation), (well_formed endLocation),
             (well_formed (BING_MAPS_API_KEY g)); reflexivity.
  - rewrite getWalkingRoute_run. eexists. split; [reflexivity|].
    unfold Raising.getWalkingRoute.
    rewrite (bind_normal _ _ _ _ _ (getDefaultWalkingOptions_run now g)).
    rewrite (bind_normal _ _ _ _ _ (plain_args _ _ _ _)).
    unfold bind, lift, ret. rewrite raising_createWalkingUrl.
    cbn [map snd forallb BING_MAPS_API_KEY].
    destruct (well_formed startLocation), (well_formed endLocation),
             (well_formed (BING_MAPS_API_KEY g)); reflexivity.
  - rewrite getDrivingRoute_run. eexists. split; [reflexivity|].
    unfold Raising.getDrivingRoute.
    rewrite (bind_normal _ _ _ _ _ (getDefaultDrivingOptions_run now g)).
    rewrite (bind_normal _ _ _ _ _ (plain_args _ _ _ _)).
    unfold bind, lift, ret. rewrite raising_createDrivingUrl.
    cbn [map snd forallb BING_MAPS_API_KEY].
    destruct (well_formed startLocation), (well_formed endLocation),
             (well_formed (BING_MAPS_API_KEY g)); reflexivity.
Qed.

End RaisingRequests.

(** ** The credential *)

Lemma key_entry_undefined
    (JSON_parse : Value -> Completion Json) (m : TravelMode) (now : Date)
    (startLocation endLocation : Value) (callback : option Callback) (c : option Date) :
  exists url,
    requested (route JSON_parse m now startLocation endLocation callback) (mkGlobals VUndefined c)
    = Normal url
    /\ lookup "key" (query_pairs (url_query url)) = Some "undefined".
Proof.
  unfold requested. destruct m; simpl route.
  - rewrite getTransitRoute_run. eexists. split; [reflexivity|].
    cbn [req_url callBingApi]. rewrite url_query_transit.
    rewrite query_pairs_objectToQueryString by reflexivity. reflexivity.
  - rewrite getWalkingRoute_run. eexists. split; [reflexivity|].
    cbn [req_url callBingApi]. rewrite url_query_walking.
    rewrite query_pairs_objectToQueryString by reflexivity. reflexivity.
  - rewrite getDrivingRoute_run. eexists. split; [reflexivity|].
    cbn [req_url callBingApi]. rewrite url_query_driving.
    rewrite query_pairs_objectToQueryString by reflexivity. reflexivity.
Qed.

(** C10: with the key undefined, and two locations that can be encoded,
    each operation still issues its request, and the query string of the
    URL has the entry key=undefined. *)
Theorem absent_key_not_validated
    (JSON_parse : Value -> Completion Json) (m : TravelMode) (now : Date)
    (startLocation endLocation : Value) (callback : option Listener) (c : option Date) :
  well_formed startLocation = true ->
  well_formed endLocation = true ->
  exists url,
    requested (Raising.route JSON_parse m now startLocation endLocation callback)
      (mkGlobals VUndefined c)
    = Normal url
    /\ lookup "key" (query_pairs (url_query url)) = Some "undefined".
Proof.
  intros Hs He.
  destruct (raising_route_run JSON_parse now startLocation endLocation callback
              (mkGlobals VUndefined c) m) as (url & E1 & E2).
  destruct (key_entry_undefined JSON_parse m now startLocation endLocation None c)
    as (url' & E1' & L).
  rewrite E1 in E1'. injection E1' as <-.
  exists url. split; [|exact L].
  unfold requested. rewrite E2. cbn [BING_MAPS_API_KEY]. now rewrite Hs, He.
Qed.

Lemma absent_key_not_validated_witness :
  requested (Raising.getWalkingRoute JSON.parse (mkDate 2011 0 1 0 0 0)
               (VStr "100 N Broad St, Philadelphia") (VStr "908 N 3rd St., Philadelphia") None)
    (mkGlobals VUndefined None)
  = Normal ("http://dev.virtualearth.net/REST/v1/Routes/Walking"
            ++ "?wp.0=100%20N%20Broad%20St%2C%20Philadelphia"
            ++ "&wp.1=908%20N%203rd%20St.%2C%20Philadelphia"
            ++ "&key=undefined&o=json&optmz=distance&du=mi").
Proof.
  destruct (absent_key_not_validated JSON.parse Walking (mkDate 2011 0 1 0 0 0)
              (VStr "100 N Broad St, Philadelphia") (VStr "908 N 3rd St., Philadelphia")
              None None eq_refl eq_refl) as (url & E & _).
  exact (eq_trans E (eq_sym (eq_trans eq_refl E))).
Defined.

Example walking_url_without_key :
  requested (getWalkingRoute JSON.parse (mkDate 2011 0 1 0 0 0)
               (VStr "100 N Broad St, Philadelphia") (VStr "908 N 3rd St., Philadelphia") None)
    (mkGlobals VUndefined None)
  = Normal ("http://dev.virtualearth.net/REST/v1/Routes/Walking"
            ++ "?wp.0=100%20N%20Broad%20St%2C%20Philadelphia"
            ++ "&wp.1=908%20N%203rd%20St.%2C%20Philadelphia"
            ++ "&key=undefined&o=json&optmz=distance&du=mi").
Proof. reflexivity. Qed.

(** The same status with a body that is a JSON text (here a JSON string):
    the error object is delivered. *)
Example not_found_json_string_body :
  answer (getTransitRoute JSON.parse (mkDate 2011 0 1 0 0 0) (VStr "a") (VStr "b") (Some (Fn 0)))
    (mkGlobals (VStr "k") None)
    (mkTransport VNull (Some (mkResponse 404)) (VStr (quoted "Not Found")))
  = Normal (returns [Invoke (Fn 0) VNull (ErrorEnvelope 404 (ParsedBody (JString "Not Found")))]).
Proof. reflexivity. Qed.

(** Without a callback a failed transport is dropped silently. *)
Example transport_error_without_callback :
  answer (getDrivingRoute JSON.parse (mkDate 2011 0 1 0 0 0) (VStr "a") (VStr "b") None)
    (mkGlobals (VStr "k") None)
    (mkTransport (VError "connect ECONNREFUSED") None VUndefined)
  = Normal (returns []).
Proof. reflexivity. Qed.

Example parse_escaped_pair :
  JSON.parse (VStr (quoted "\ud83d\ude00"))
  = Normal (JString (String "240" (String "159" (String "152" (String "128" ""))))).
Proof. reflexivity. Qed.

(** * Further properties of the code *)

(** ** Helpers on texts *)

Lemma escape_byte_chars (c : ascii) : all escaped_char (escape_byte c) = true.
Proof.
  destruct c as [[] [] [] [] [] [] [] []]; reflexivity.
Qed.

Lemma escape_chars (s : string) : all escaped_char (escape s) = true.
Proof.
  induction s as [|c r IH]; simpl; [reflexivity|].
  now rewrite all_app, escape_byte_chars, IH.
Qed.

Lemma all_weaken (p q : ascii -> bool) (s : string) :
  (forall c, p c = true -> q c = true) -> all p s = true -> all q s = true.
Proof.
  intros Hpq. induction s as [|c r IH]; simpl; [reflexivity|].
  intros H. apply andb_true_iff in H as [Hc Hr].
  now rewrite (Hpq c Hc), (IH Hr).
Qed.

Lemma escape_url_chars (s : string) : all url_char (escape s) = true.
Proof.
  apply (all_weaken escaped_char); [|apply escape_chars].
  intros c H. unfold url_char. now rewrite H.
Qed.

Lemma escape_injective (a b : string) : escape a = escape b -> a = b.
Proof.
  intros H. apply (f_equal unescape) in H.
  rewrite !unescape_escape in H. now injection H.
Qed.

Lemma url_path_query (url : string) : url_path url ++ url_query url = url.
Proof.
  induction url as [|c r IH]; simpl; [reflexivity|].
  destruct (Ascii.eqb c "?"); simpl; [reflexivity | now rewrite IH].
Qed.

Lemma has_false_get (o : Obj) (k : string) : has o k = false -> get o k = VUndefined.
Proof.
  induction o as [|[k' v] o IH]; simpl; [reflexivity|].
  destruct (k' =? k)%string; [discriminate | exact IH].
Qed.

(** ** objectToQueryString *)

(** X1: on objects whose keys hold no [&] and no [=], the query string
    determines the entries: two objects with the same query string have the
    same keys in the same order, with values of the same string form. *)
Theorem objectToQueryString_injective (o1 o2 : Obj) :
  forallb plain_key (keys o1) = true ->
  forallb plain_key (keys o2) = true ->
  objectToQueryString (Some o1) = objectToQueryString (Some o2) ->
  map (fun kv => (fst kv, ToString (snd kv))) o1
  = map (fun kv => (fst kv, ToString (snd kv))) o2.
Proof.
  intros H1 H2 E. apply (f_equal query_pairs) in E.
  rewrite (query_pairs_objectToQueryString o1 H1),
          (query_pairs_objectToQueryString o2 H2) in E.
  clear H1 H2. revert o2 E.
  induction o1 as [|[k1 v1] o1 IH]; intros [|[k2 v2] o2] E; simpl in E;
    try discriminate; [reflexivity|].
  injection E as Ek Ev E. simpl. f_equal.
  - f_equal; [exact Ek | now apply escape_injective].
  - now apply IH.
Qed.

Lemma objectToQueryString_injective_witness :
  map (fun kv : string * Value => (fst kv, ToString (snd kv)))
      [("wp.0", VStr "a&b=c"); ("maxSolutions", VNum 3)]
  = map (fun kv : string * Value => (fst kv, ToString (snd kv)))
      [("wp.0", VStr "a&b=c"); ("maxSolutions", VStr "3")].
Proof.
  exact (objectToQueryString_injective
           [("wp.0", VStr "a&b=c"); ("maxSolutions", VNum 3)]
           [("wp.0", VStr "a&b=c"); ("maxSolutions", VStr "3")]
           eq_refl eq_refl eq_refl).
Defined.

(** ** convertLocationsAndOptionsToQueryStringArgs *)

(** X2: for any options object the function returns, without touching
    the globals, the six entries wp.0, wp.1, key, o, optmz, du in this
    order, followed by dt, tt and maxSolutions (in this order) for those of
    travelTime, timeType and maxSolutionCount that are truthy; an option
    that is present but falsy (an empty travelTime, a maxSolutionCount of 0)
    gets no entry.  The values are the two locations, the key and the
    options as they are. *)
Theorem query_args_shape (startLocation endLocation : Value) (options : Obj) (g : Globals) :
  exists args,
    convertLocationsAndOptionsToQueryStringArgs startLocation endLocation options g
    = (Normal args, g)
    /\ keys args
       = (["wp.0"; "wp.1"; "key"; "o"; "optmz"; "du"]
          ++ (if ToBoolean (get options "travelTime") then ["dt"] else [])
          ++ (if ToBoolean (get options "timeType") then ["tt"] else [])
          ++ (if ToBoolean (get options "maxSolutionCount") then ["maxSolutions"] else []))%list
    /\ map (get args) ["wp.0"; "wp.1"; "key"; "o"; "optmz"; "du"]
       = [startLocation; endLocation; BING_MAPS_API_KEY g;
          get options "outputType"; get options "optimize"; get options "distanceUnit"]
    /\ get args "dt"
       = (if ToBoolean (get options "travelTime") then get options "travelTime" else VUndefined)
    /\ get args "tt"
       = (if ToBoolean (get options "timeType") then get options "timeType" else VUndefined)
    /\ get args "maxSolutions"
       = (if ToBoolean (get options "maxSolutionCount")
          then get options "maxSolutionCount" else VUndefined).
Proof.
  eexists. split; [reflexivity|].
  unfold set_if_truthy.
  destruct (ToBoolean (get options "travelTime")),
           (ToBoolean (get options "timeType")),
           (ToBoolean (get options "maxSolutionCount")); repeat split.
Qed.

Lemma query_args_plain_keys (startLocation endLocation : Value) (options : Obj) (g : Globals)
    (args : Obj) :
  convertLocationsAndOptionsToQueryStringArgs startLocation endLocation options g
  = (Normal args, g) ->
  forallb plain_key (keys args) = true.
Proof.
  intros E. injection E as <-. unfold set_if_truthy.
  destruct (ToBoolean (get options "travelTime")),
           (ToBoolean (get options "timeType")),
           (ToBoolean (get options "maxSolutionCount")); reflexivity.
Qed.

(** X3: an option that is missing is not left out of the query: when the
    options object has no outputType (optimize, distanceUnit), the query
    string built from the result still has the entry o (optmz, du), with
    the text undefined. *)
Theorem missing_option_written_as_undefined
    (startLocation endLocation : Value) (options : Obj) (g : Globals) (args : Obj) :
  convertLocationsAndOptionsToQueryStringArgs startLocation endLocation options g
  = (Normal args, g) ->
  (has options "outputType" = false ->
   lookup "o" (query_pairs (objectToQueryString (Some args))) = Some "undefined")
  /\ (has options "optimize" = false ->
      lookup "optmz" (query_pairs (objectToQueryString (Some args))) = Some "undefined")
  /\ (has options "distanceUnit" = false ->
      lookup "du" (query_pairs (objectToQueryString (Some args))) = Some "undefined").
Proof.
  intros E.
  rewrite (query_pairs_objectToQueryString args (query_args_plain_keys _ _ _ _ _ E)).
  injection E as <-.
  unfold set_if_truthy.
  repeat split; intros H; apply has_false_get in H; rewrite H;
    destruct (ToBoolean (get options "travelTime")),
             (ToBoolean (get options "timeType")),
             (ToBoolean (get options "maxSolutionCount")); reflexivity.
Qed.

Lemma missing_option_written_as_undefined_witness :
  lookup "optmz"
    (query_pairs
       (objectToQueryString
          (Some [("wp.0", VStr "a"); ("wp.1", VStr "b"); ("key", VStr "k");
                 ("o", VStr "json"); ("optmz", VUndefined); ("du", VStr "mi")])))
  = Some "undefined".
Proof.
  destruct (missing_option_written_as_undefined (VStr "a") (VStr "b")
              [("outputType", VStr "json"); ("distanceUnit", VStr "mi")]
              (mkGlobals (VStr "k") None)
              [("wp.0", VStr "a"); ("wp.1", VStr "b"); ("key", VStr "k");
               ("o", VStr "json"); ("optmz", VUndefined); ("du", VStr "mi")]
              eq_refl) as (_ & H & _).
  exact (H eq_refl).
Defined.

(** ** The URL of a request *)

Lemma pair_text_url_chars (k : string) (v : Value) :
  all url_char k = true -> all url_char (pair_text (k, v)) = true.
Proof.
  intros Hk. unfold pair_text, encodeURIComponent. simpl fst. simpl snd.
  now rewrite !all_app, Hk, escape_url_chars.
Qed.

Lemma objectToQueryString_url_chars (o : Obj) :
  forallb (all url_char) (keys o) = true ->
  all url_char (objectToQueryString (Some o)) = true.
Proof.
  unfold objectToQueryString.
  change (fun kv : string * Value => fst kv ++ "=" ++ encodeURIComponent (snd kv)) with pair_text.
  rewrite all_app. simpl (all url_char "?"). cbv beta iota.
  induction o as [|[k v] o IH]; [reflexivity|].
  intros H. simpl in H. apply andb_true_iff in H as [Hk Ho]. specialize (IH Ho).
  destruct o as [|kv o'].
  - simpl. now apply pair_text_url_chars.
  - change (join "&" (map pair_text ((k, v) :: kv :: o')))
      with (pair_text (k, v) ++ "&" ++ join "&" (map pair_text (kv :: o'))).
    rewrite !all_app, (pair_text_url_chars k v Hk).
    simpl in IH |- *. exact IH.
Qed.

Section Urls.

Variable JSON_parse : Value -> Completion Json.
Variables (now : Date) (startLocation endLocation : Value) (callback : option Callback).
Variable g : Globals.

(** The arguments that the operation of a mode hands to its URL builder. *)
Lemma route_requested (m : TravelMode) :
  exists args,
    requested (route JSON_parse m now startLocation endLocation callback) g
    = Normal (SERVICE_URL ++ "/" ++ RESOURCE m ++ objectToQueryString (Some args))
    /\ forallb (all url_char) (keys args) = true.
Proof.
  unfold requested. destruct m; simpl route.
  - rewrite getTransitRoute_run. eexists. split; reflexivity.
  - rewrite getWalkingRoute_run. eexists. split; reflexivity.
  - rewrite getDrivingRoute_run. eexists. split; reflexivity.
Qed.

Lemma url_query_route (m : TravelMode) (q : string) :
  url_query (SERVICE_URL ++ "/" ++ RESOURCE m ++ String "?" q) = String "?" q.
Proof. destruct m; reflexivity. Qed.

Lemma url_path_route (m : TravelMode) (q : string) :
  url_path (SERVICE_URL ++ "/" ++ RESOURCE m ++ String "?" q)
  = "http://dev.virtualearth.net/REST/v1/" ++ RESOURCE m.
Proof. destruct m; reflexivity. Qed.

End Urls.

Lemma url_shape_when_encoded
    (JSON_parse : Value -> Completion Json) (m : TravelMode) (now : Date)
    (startLocation endLocation : Value) (callback : option Callback) (g : Globals) :
  exists url q,
    requested (route JSON_parse m now startLocation endLocation callback) g = Normal url
    /\ url = SERVICE_URL ++ "/" ++ RESOURCE m ++ String "?" q
    /\ url_path url = "http://dev.virtualearth.net/REST/v1/" ++ RESOURCE m
    /\ url_query url = String "?" q
    /\ all url_char url = true.
Proof.
  destruct (route_requested JSON_parse now startLocation endLocation callback g m)
    as (args & E & Hc).
  exists (SERVICE_URL ++ "/" ++ RESOURCE m ++ objectToQueryString (Some args)).
  exists (join "&" (map (fun kv => fst kv ++ "=" ++ encodeURIComponent (snd kv)) args)).
  split; [exact E|]. split; [reflexivity|].
  split; [apply url_path_route|]. split; [apply url_query_route|].
  rewrite !all_app, (objectToQueryString_url_chars args Hc).
  destruct m; reflexivity.
Qed.

Lemma round_trip_when_encoded
    (JSON_parse : Value -> Completion Json) (m : TravelMode) (now : Date)
    (startLocation endLocation : Value) (callback : option Callback) (g : Globals) :
  exists url v0 v1 vk,
    requested (route JSON_parse m now startLocation endLocation callback) g = Normal url
    /\ lookup "wp.0" (query_pairs (url_query url)) = Some v0
    /\ unescape v0 = Some (ToString startLocation)
    /\ lookup "wp.1" (query_pairs (url_query url)) = Some v1
    /\ unescape v1 = Some (ToString endLocation)
    /\ lookup "key" (query_pairs (url_query url)) = Some vk
    /\ unescape vk = Some (ToString (BING_MAPS_API_KEY g)).
Proof.
  unfold requested. destruct m; simpl route;
    [rewrite getTransitRoute_run | rewrite getWalkingRoute_run | rewrite getDrivingRoute_run];
    cbn [req_url callBingApi];
    eexists; exists (encodeURIComponent startLocation), (encodeURIComponent endLocation),
               (encodeURIComponent (BING_MAPS_API_KEY g));
    (split; [reflexivity|]);
    rewrite ?url_query_transit, ?url_query_walking, ?url_query_driving;
    rewrite query_pairs_objectToQueryString by reflexivity;
    repeat split; apply unescape_escape.
Qed.

(** X4: when the two locations and the key can be encoded (no lone
    surrogate; numbers of magnitude at most 2^53), each operation requests
    the service URL followed by [/], the resource of its mode and a query
    that starts with [?]; the text before the first [?] is exactly that
    path, and every byte of the URL is a letter, a digit, one of the nine
    marks, [%], or a delimiter [: / ? & =]: no space and no byte outside
    ASCII reaches the transport. *)
Theorem requested_url_shape
    (JSON_parse : Value -> Completion Json) (m : TravelMode) (now : Date)
    (startLocation endLocation : Value) (callback : option Listener) (g : Globals) :
  forallb well_formed [startLocation; endLocation; BING_MAPS_API_KEY g] = true ->
  forallb safe_integer [startLocation; endLocation; BING_MAPS_API_KEY g] = true ->
  exists url q,
    requested (Raising.route JSON_parse m now startLocation endLocation callback) g = Normal url
    /\ url = SERVICE_URL ++ "/" ++ RESOURCE m ++ String "?" q
    /\ url_path url = "http://dev.virtualearth.net/REST/v1/" ++ RESOURCE m
    /\ url_query url = String "?" q
    /\ all url_char url = true.
Proof.
  intros Hw _.
  destruct (raising_route_run JSON_parse now startLocation endLocation callback g m)
    as (url & E1 & E2).
  destruct (url_shape_when_encoded JSON_parse m now startLocation endLocation None g)
    as (url' & q & E1' & H).
  rewrite E1 in E1'. injection E1' as <-.
  exists url, q. split; [|exact H].
  unfold requested. rewrite E2.
  cbn [forallb] in Hw. rewrite andb_true_r, andb_assoc in Hw. now rewrite Hw.
Qed.

Lemma requested_url_shape_witness :
  exists url q,
    requested (Raising.getDrivingRoute JSON.parse (mkDate 2011 0 1 0 0 0)
                 (VStr "100 N Broad St, Philadelphia") (VNum 19104) None)
      (mkGlobals (VStr "k") None)
    = Normal url
    /\ url = SERVICE_URL ++ "/" ++ RESOURCE Driving ++ String "?" q
    /\ url_path url = "http://dev.virtualearth.net/REST/v1/" ++ RESOURCE Driving
    /\ url_query url = String "?" q
    /\ all url_char url = true.
Proof.
  exact (requested_url_shape JSON.parse Driving (mkDate 2011 0 1 0 0 0)
           (VStr "100 N Broad St, Philadelphia") (VNum 19104) None
           (mkGlobals (VStr "k") None) eq_refl eq_refl).
Defined.

(** X5: when the two locations and the key can be encoded (no lone
    surrogate; numbers of magnitude at most 2^53), they travel through the
    URL unharmed: reading the query of the requested URL back and undoing
    the escapes gives the string form of the start location under wp.0, of
    the end location under wp.1 and of the key under key. *)
Theorem locations_round_trip
    (JSON_parse : Value -> Completion Json) (m : TravelMode) (now : Date)
    (startLocation endLocation : Value) (callback : option Listener) (g : Globals) :
  forallb well_formed [startLocation; endLocation; BING_MAPS_API_KEY g] = true ->
  forallb safe_integer [startLocation; endLocation; BING_MAPS_API_KEY g] = true ->
  exists url v0 v1 vk,
    requested (Raising.route JSON_parse m now startLocation endLocation callback) g = Normal url
    /\ lookup "wp.0" (query_pairs (url_query url)) = Some v0
    /\ unescape v0 = Some (ToString startLocation)
    /\ lookup "wp.1" (query_pairs (url_query url)) = Some v1
    /\ unescape v1 = Some (ToString endLocation)
    /\ lookup "key" (query_pairs (url_query url)) = Some vk
    /\ unescape vk = Some (ToString (BING_MAPS_API_KEY g)).
Proof.
  intros Hw _.
  destruct (raising_route_run JSON_parse now startLocation endLocation callback g m)
    as (url & E1 & E2).
  destruct (round_trip_when_encoded JSON_parse m now startLocation endLocation None g)
    as (url' & v0 & v1 & vk & E1' & H).
  rewrite E1 in E1'. injection E1' as <-.
  exists url, v0, v1, vk. split; [|exact H].
  unfold requested. rewrite E2.
  cbn [forallb] in Hw. rewrite andb_true_r, andb_assoc in Hw. now rewrite Hw.
Qed.

Lemma locations_round_trip_witness :
  exists url v0 v1 vk,
    requested (Raising.getTransitRoute JSON.parse (mkDate 2011 0 1 0 0 0)
                 (VStr "a&b=c d") (VStr "é/?#") None)
      (mkGlobals (VStr "k+1") None)
    = Normal url
    /\ lookup "wp.0" (query_pairs (url_query url)) = Some v0
    /\ unescape v0 = Some "a&b=c d"
    /\ lookup "wp.1" (query_pairs (url_query url)) = Some v1
    /\ unescape v1 = Some "é/?#"
    /\ lookup "key" (query_pairs (url_query url)) = Some vk
    /\ unescape vk = Some "k+1".
Proof.
  exact (locations_round_trip JSON.parse Transit (mkDate 2011 0 1 0 0 0)
           (VStr "a&b=c d") (VStr "é/?#") None (mkGlobals (VStr "k+1") None)
           eq_refl eq_refl).
Defined.

(** X14: a location or a key whose string form holds a lone surrogate
    stops the operation: [encodeURIComponent] throws a URIError, nothing is
    requested, and the clock reading of the call is already in
    [curTime]. *)
Theorem lone_surrogate_stops_operation
    (JSON_parse : Value -> Completion Json) (m : TravelMode) (now : Date)
    (startLocation endLocation : Value) (callback : option Listener) (g : Globals) :
  forallb well_formed [startLocation; endLocation; BING_MAPS_API_KEY g] = false ->
  Raising.route JSON_parse m now startLocation endLocation callback g
  = (Throw URIError, mkGlobals (BING_MAPS_API_KEY g) (Some now)).
Proof.
  intros Hw.
  destruct (raising_route_run JSON_parse now startLocation endLocation callback g m)
    as (url & _ & E).
  rewrite E. cbn [forallb] in Hw. rewrite andb_true_r, andb_assoc in Hw. now rewrite Hw.
Qed.

Lemma lone_surrogate_stops_operation_witness :
  Raising.getWalkingRoute JSON.parse (mkDate 2011 11 25 7 8 9)
    (VStr (String "237" (String "160" (String "189" "")))) (VStr "b") None
    (mkGlobals (VStr "k") None)
  = (Throw URIError, mkGlobals (VStr "k") (Some (mkDate 2011 11 25 7 8 9))).
Proof.
  exact (lone_surrogate_stops_operation JSON.parse Walking (mkDate 2011 11 25 7 8 9)
           (VStr (String "237" (String "160" (String "189" "")))) (VStr "b") None
           (mkGlobals (VStr "k") None) eq_refl).
Defined.

(** X6: calls do not leak into each other: after any operation has run
    (leaving its clock reading in [curTime]), a transit call made at clock
    reading [now2] sends under dt the timestamp of [now2], and under key the
    key as it was before the first call. *)
Theorem second_call_uses_its_own_clock
    (JSON_parse : Value -> Completion Json) (m : TravelMode) (now1 now2 : Date)
    (s1 e1 s2 e2 : Value) (cb1 cb2 : option Callback) (g : Globals) :
  exists url vt vk,
    requested (getTransitRoute JSON_parse now2 s2 e2 cb2)
      (globals_after (route JSON_parse m now1 s1 e1 cb1) g)
    = Normal url
    /\ lookup "dt" (query_pairs (url_query url)) = Some vt
    /\ unescape vt = Some (utc_timestamp now2)
    /\ lookup "key" (query_pairs (url_query url)) = Some vk
    /\ unescape vk = Some (ToString (BING_MAPS_API_KEY g)).
Proof.
  unfold globals_after.
  destruct (route_issues JSON_parse now1 s1 e1 cb1 g m) as [u ->]. cbn [snd].
  unfold requested. rewrite getTransitRoute_run. cbn [req_url callBingApi BING_MAPS_API_KEY].
  eexists. exists (encodeURIComponent (VStr (travelTime_of now2))),
             (encodeURIComponent (BING_MAPS_API_KEY g)).
  split; [reflexivity|].
  rewrite url_query_transit, query_pairs_objectToQueryString by reflexivity.
  repeat split.
  - rewrite <- travelTime_of_timestamp. apply unescape_escape.
  - apply unescape_escape.
Qed.

(** ** The completion function, case by case *)

(** X7: with a callback, the completion function calls it at most once.
    When it does not call it, it throws: a TypeError when there is no
    response, the exception of [JSON.parse] when the body does not parse.
    When there is a response and the body parses, it calls it exactly once
    and ends as that call ends: it returns if the callback returns and
    throws what the callback throws. *)
Theorem called_once_or_thrown
    (JSON_parse : Value -> Completion Json) (url : string) (f : Listener) (t : Transport) :
  let o := complete (Raising.callBingApi JSON_parse url (Some f)) t in
  (List.length (calls o) <= 1)%nat
  /\ (t_response t = None -> o = throws TypeError)
  /\ (t_response t <> None ->
      forall e, JSON_parse (t_body t) = Throw e -> o = throws e)
  /\ (forall r j,
        t_response t = Some r ->
        JSON_parse (t_body t) = Normal j ->
        exists err result,
          (err, result)
          = (if (negb (ToBoolean (t_err t)) && (statusCode r =? 200))%bool
             then (VUndefined, Success j)
             else (t_err t, ErrorEnvelope (statusCode r) (ParsedBody j)))
          /\ calls o = [Invoke (listener_fn f) err result]
          /\ completion o = listener_call f err result).
Proof.
  unfold complete, Raising.callBingApi, Raising.callBingApi_handler. cbn [on_complete].
  destruct t as [err [[s]|] body]; cbn [t_err t_response t_body response_statusCode].
  - split; [|split; [discriminate|split]].
    + destruct (negb (ToBoolean err)); cbn; destruct (s =? 200); destruct (JSON_parse body);
        cbn; lia.
    + intros _ e ->. destruct (negb (ToBoolean err)); cbn; destruct (s =? 200); reflexivity.
    + intros r j [= <-] ->. cbn [statusCode].
      destruct (negb (ToBoolean err)); cbn; destruct (s =? 200); cbn;
        do 2 eexists; repeat split.
  - split; [|split; [|split; [congruence | discriminate]]].
    + destruct (negb (ToBoolean err)); cbn; lia.
    + intros _. destruct (negb (ToBoolean err)); reflexivity.
Qed.

Lemma called_once_or_thrown_witness :
  exists err result,
    calls (complete (Raising.callBingApi JSON.parse "http://dev.virtualearth.net/"
                       (Some (mkListener (Fn 0) (fun _ _ => Throw TypeError))))
             (mkTransport VNull (Some (mkResponse 200)) (VStr stub_body)))
    = [Invoke (Fn 0) err result]
    /\ completion (complete (Raising.callBingApi JSON.parse "http://dev.virtualearth.net/"
                               (Some (mkListener (Fn 0) (fun _ _ => Throw TypeError))))
                     (mkTransport VNull (Some (mkResponse 200)) (VStr stub_body)))
       = Throw TypeError.
Proof.
  destruct (called_once_or_thrown JSON.parse "http://dev.virtualearth.net/"
              (mkListener (Fn 0) (fun _ _ => Throw TypeError))
              (mkTransport VNull (Some (mkResponse 200)) (VStr stub_body)))
    as (_ & _ & _ & H).
  destruct (H (mkResponse 200) (JObject [("resourceSets", JArray [])]) eq_refl eq_refl)
    as (err & result & _ & Hc & He).
  exists err, result. split; [exact Hc | exact He].
Defined.

(** A callback that always returns: the completion function is the one of
    the first part. *)
Lemma raising_handler_returning
    (JSON_parse : Value -> Completion Json) (f : Listener)
    (err : Value) (response : option Response) (body : Value) :
  (forall a b, listener_call f a b = Normal tt) ->
  Raising.callBingApi_handler JSON_parse (Some f) err response body
  = callBingApi_handler JSON_parse (Some (listener_fn f)) err response body.
Proof.
  intros H. unfold Raising.callBingApi_handler, callBingApi_handler, Raising.call, returns.
  destruct (negb (ToBoolean err)), response as [[s]|]; cbn;
    try destruct (s =? 200); try destruct (JSON_parse body); rewrite ?H; reflexivity.
Qed.

(** X8: without a callback nothing is ever called and [JSON.parse] is never
    consulted; the completion function returns in silence, except that with
    a falsy error argument and no response the test of the status throws a
    TypeError. *)
Theorem no_callback_no_calls
    (JSON_parse : Value -> Completion Json) (m : TravelMode) (now : Date)
    (startLocation endLocation : Value) (g : Globals) (t : Transport) :
  answer (route JSON_parse m now startLocation endLocation None) g t
  = Normal (match t_response t with
            | None => if ToBoolean (t_err t) then returns [] else throws TypeError
            | Some _ => returns []
            end).
Proof.
  rewrite answer_route. unfold callBingApi_handler.
  destruct t as [err [[s]|] body]; cbn [t_err t_response t_body response_statusCode].
  - destruct (ToBoolean err); cbn; [|destruct (s =? 200)]; reflexivity.
  - destruct (ToBoolean err); reflexivity.
Qed.

(** X9: a truthy error argument decides alone: even when the response has
    status 200, the callback gets the error and the error object (with
    statusCode 200), never the parsed body as a success. *)
Theorem error_argument_overrides_status
    (JSON_parse : Value -> Completion Json) (m : TravelMode) (now : Date)
    (startLocation endLocation : Value) (f : Callback) (g : Globals)
    (err body : Value) (status : Z) (j : Json) :
  ToBoolean err = true ->
  JSON_parse body = Normal j ->
  answer (route JSON_parse m now startLocation endLocation (Some f)) g
    (mkTransport err (Some (mkResponse status)) body)
  = Normal (returns [Invoke f err (ErrorEnvelope status (ParsedBody j))]).
Proof.
  intros He Hj. rewrite answer_route. unfold callBingApi_handler. cbn.
  now rewrite He, Hj.
Qed.

Lemma error_argument_overrides_status_witness :
  answer (getTransitRoute JSON.parse (mkDate 2011 0 1 0 0 0) (VStr "a") (VStr "b") (Some (Fn 0)))
    (mkGlobals (VStr "k") None)
    (mkTransport (VError "socket hang up") (Some (mkResponse 200)) (VStr stub_body))
  = Normal (returns [Invoke (Fn 0) (VError "socket hang up")
                       (ErrorEnvelope 200 (ParsedBody (JObject [("resourceSets", JArray [])])))]).
Proof.
  exact (error_argument_overrides_status JSON.parse Transit (mkDate 2011 0 1 0 0 0)
           (VStr "a") (VStr "b") (Fn 0) (mkGlobals (VStr "k") None)
           (VError "socket hang up") (VStr stub_body) 200
           (JObject [("resourceSets", JArray [])]) eq_refl eq_refl).
Defined.

(** X10: an HTTP error without a transport error reaches the callback with
    a falsy first argument (the one [request] passed): a caller that only
    tests [if (!err)] takes the error object for an answer. *)
Theorem http_error_has_falsy_first_argument
    (JSON_parse : Value -> Completion Json) (m : TravelMode) (now : Date)
    (startLocation endLocation : Value) (f : Callback) (g : Globals)
    (err body : Value) (status : Z) (j : Json) :
  ToBoolean err = false ->
  status <> 200 ->
  JSON_parse body = Normal j ->
  exists first,
    answer (route JSON_parse m now startLocation endLocation (Some f)) g
      (mkTransport err (Some (mkResponse status)) body)
    = Normal (returns [Invoke f first (ErrorEnvelope status (ParsedBody j))])
    /\ first = err
    /\ ToBoolean first = false.
Proof.
  intros He Hs Hj. exists err. split; [|split; [reflexivity | exact He]].
  rewrite answer_route. unfold callBingApi_handler. cbn.
  apply Z.eqb_neq in Hs. now rewrite He, Hs, Hj.
Qed.

Lemma http_error_has_falsy_first_argument_witness :
  exists first,
    answer (getWalkingRoute JSON.parse (mkDate 2011 0 1 0 0 0) (VStr "a") (VStr "b") (Some (Fn 0)))
      (mkGlobals (VStr "k") None)
      (mkTransport VNull (Some (mkResponse 401)) (VStr "{}"))
    = Normal (returns [Invoke (Fn 0) first (ErrorEnvelope 401 (ParsedBody (JObject [])))])
    /\ first = VNull
    /\ ToBoolean first = false.
Proof.
  exact (http_error_has_falsy_first_argument JSON.parse Walking (mkDate 2011 0 1 0 0 0)
           (VStr "a") (VStr "b") (Fn 0) (mkGlobals (VStr "k") None)
           VNull (VStr "{}") 401 (JObject []) eq_refl ltac:(discriminate) eq_refl).
Defined.

(** ** The earlier revision against the current one *)

Lemma legacy_getTransitRoute_run
    (JSON_parse : Value -> Completion Json) (now : Date)
    (startLocation endLocation : Value) (callback : option Callback) (g : Globals) :
  Legacy.getTransitRoute JSON_parse now startLocation endLocation callback g
  = (Normal (mkRequest
               (createTransitUrl
                  (Some [("wp.0", startLocation); ("wp.1", endLocation);
                         ("key", BING_MAPS_API_KEY g);
                         ("o", VStr "json"); ("optmz", VStr "time"); ("du", VStr "mi");
                         ("dt", VStr (dec (getUTCHours now) ++ ":" ++ dec (getUTCMinutes now)
                                      ++ ":" ++ dec (getUTCSeconds now)));
                         ("tt", VStr "Departure");
                         ("maxSolutions", VNum 3)]))
               (Legacy.getTransitRoute_handler JSON_parse callback)),
     g).
Proof. reflexivity. Qed.

(** X11: in the earlier revision an answer that carries a response and is
    not a success (a truthy error argument, or a status other than 200)
    always reaches the callback, once, with the status and the body as
    received, whatever the body is; the current revision throws on the same
    answer whenever [JSON.parse] rejects the body. *)
Theorem legacy_delivers_raw_body
    (JSON_parse : Value -> Completion Json) (now : Date)
    (startLocation endLocation : Value) (f : Callback) (g : Globals)
    (err body : Value) (status : Z) :
  ToBoolean err = true \/ status <> 200 ->
  answer (Legacy.getTransitRoute JSON_parse now startLocation endLocation (Some f)) g
    (mkTransport err (Some (mkResponse status)) body)
  = Normal (returns [Invoke f err (ErrorEnvelope status (RawBody body))])
  /\ (forall e, JSON_parse body = Throw e ->
      answer (getTransitRoute JSON_parse now startLocation endLocation (Some f)) g
        (mkTransport err (Some (mkResponse status)) body)
      = Normal (throws e)).
Proof.
  intros H.
  assert (Hok : (negb (ToBoolean err) && (status =? 200))%bool = false).
  { destruct H as [H|H]; [now rewrite H|].
    apply Z.eqb_neq in H. rewrite H. apply andb_false_r. }
  split.
  - unfold answer. rewrite legacy_getTransitRoute_run.
    unfold complete, Legacy.getTransitRoute_handler. cbn.
    destruct (negb (ToBoolean err)); cbn in *; [rewrite Hok|]; reflexivity.
  - intros e He. rewrite (answer_route JSON_parse now startLocation endLocation (Some f) g Transit).
    unfold callBingApi_handler. cbn.
    destruct (negb (ToBoolean err)); cbn in *; [rewrite Hok|]; now rewrite He.
Qed.

Lemma legacy_delivers_raw_body_witness :
  answer (Legacy.getTransitRoute JSON.parse (mkDate 2011 0 1 0 0 0) (VStr "a") (VStr "b")
            (Some (Fn 0)))
    (mkGlobals (VStr "k") None)
    (mkTransport VNull (Some (mkResponse 500)) (VStr "<html>Internal Server Error</html>"))
  = Normal (returns [Invoke (Fn 0) VNull
                       (ErrorEnvelope 500 (RawBody (VStr "<html>Internal Server Error</html>")))])
  /\ answer (getTransitRoute JSON.parse (mkDate 2011 0 1 0 0 0) (VStr "a") (VStr "b")
               (Some (Fn 0)))
       (mkGlobals (VStr "k") None)
       (mkTransport VNull (Some (mkResponse 500)) (VStr "<html>Internal Server Error</html>"))
     = Normal (throws SyntaxError).
Proof.
  destruct (legacy_delivers_raw_body JSON.parse (mkDate 2011 0 1 0 0 0) (VStr "a") (VStr "b")
              (Fn 0) (mkGlobals (VStr "k") None) VNull
              (VStr "<html>Internal Server Error</html>") 500
              (or_intror (proj1 (Z.eqb_neq 500 200) eq_refl))) as [H1 H2].
  split; [exact H1 | exact (H2 SyntaxError eq_refl)].
Defined.

(** X12: on every other answer the two revisions do the same: without a
    response, and on a success (falsy error argument and status 200), the
    earlier and the current transit operation call the callback alike and
    end alike, with or without a callback. *)
Theorem legacy_agrees_elsewhere
    (JSON_parse : Value -> Completion Json) (now : Date)
    (startLocation endLocation : Value) (callback : option Callback) (g : Globals)
    (t : Transport) :
  t_response t = None
  \/ (ToBoolean (t_err t) = false /\ t_response t = Some (mkResponse 200))
  \/ callback = None ->
  answer (Legacy.getTransitRoute JSON_parse now startLocation endLocation callback) g t
  = answer (getTransitRoute JSON_parse now startLocation endLocation callback) g t.
Proof.
  intros H.
  rewrite (answer_route JSON_parse now startLocation endLocation callback g Transit).
  unfold answer. rewrite legacy_getTransitRoute_run.
  unfold complete, Legacy.getTransitRoute_handler, callBingApi_handler. cbn.
  destruct t as [err response body]; cbn in *.
  destruct H as [-> | [[He ->] | ->]].
  - reflexivity.
  - rewrite He. reflexivity.
  - destruct (negb (ToBoolean err)), response as [[s]|]; cbn;
      try destruct (s =? 200); reflexivity.
Qed.

Lemma legacy_agrees_elsewhere_witness :
  answer (Legacy.getTransitRoute JSON.parse (mkDate 2011 0 1 0 0 0) (VStr "a") (VStr "b")
            (Some (Fn 0)))
    (mkGlobals (VStr "k") None)
    (mkTransport VNull (Some (mkResponse 200)) (VStr stub_body))
  = answer (getTransitRoute JSON.parse (mkDate 2011 0 1 0 0 0) (VStr "a") (VStr "b")
              (Some (Fn 0)))
      (mkGlobals (VStr "k") None)
      (mkTransport VNull (Some (mkResponse 200)) (VStr stub_body)).
Proof.
  exact (legacy_agrees_elsewhere JSON.parse (mkDate 2011 0 1 0 0 0) (VStr "a") (VStr "b")
           (Some (Fn 0)) (mkGlobals (VStr "k") None)
           (mkTransport VNull (Some (mkResponse 200)) (VStr stub_body))
           (or_intror (or_introl (conj eq_refl eq_refl)))).
Defined.

(** X13: the two revisions request the same resource with the same keys in
    the same order and, dt apart, the same values; under dt the earlier one
    sends the time of day alone, the current one the date, a space and that
    same time of day. *)
Theorem legacy_request_differs_in_dt
    (JSON_parse : Value -> Completion Json) (now : Date)
    (startLocation endLocation : Value) (callback : option Callback) (g : Globals) :
  exists old new vold vnew,
    requested (Legacy.getTransitRoute JSON_parse now startLocation endLocation callback) g
    = Normal old
    /\ requested (getTransitRoute JSON_parse now startLocation endLocation callback) g
       = Normal new
    /\ url_path old = url_path new
    /\ query_keys (url_query old) = query_keys (url_query new)
    /\ (forall k, k <> "dt" ->
        lookup k (query_pairs (url_query old)) = lookup k (query_pairs (url_query new)))
    /\ lookup "dt" (query_pairs (url_query old)) = Some vold
    /\ lookup "dt" (query_pairs (url_query new)) = Some vnew
    /\ (exists time,
          unescape vold = Some time
          /\ unescape vnew
             = Some (dec (getUTCMonth now + 1) ++ "/" ++ dec (getUTCDate now) ++ "/"
                     ++ dec (getUTCFullYear now) ++ " " ++ time)).
Proof.
  unfold requested. rewrite legacy_getTransitRoute_run, getTransitRoute_run.
  cbn [req_url callBingApi].
  do 2 eexists.
  exists (encodeURIComponent (VStr (dec (getUTCHours now) ++ ":" ++ dec (getUTCMinutes now)
                                    ++ ":" ++ dec (getUTCSeconds now)))),
         (encodeURIComponent (VStr (travelTime_of now))).
  do 2 (split; [reflexivity|]).
  split; [reflexivity|].
  rewrite !url_query_transit.
  rewrite !query_keys_objectToQueryString by reflexivity.
  rewrite !query_pairs_objectToQueryString by reflexivity.
  split; [reflexivity|].
  split.
  - intros k Hk. cbn [map lookup fst snd].
    repeat match goal with
           | |- context [(?a =? k)%string] =>
               let E := fresh "E" in
               destruct (a =? k)%string eqn:E;
               [try reflexivity; apply String.eqb_eq in E; congruence|]
           end.
    reflexivity.
  - do 2 (split; [reflexivity|]).
    eexists. split; [apply unescape_escape|].
    unfold encodeURIComponent. rewrite unescape_escape. reflexivity.
Qed.
